(** * OpenRouter client (ai_docs/openrouter-setup.md, [openrouter.ts])

    A shallow embedding of the one-file OpenRouter client: the routing
    policy builder [_buildRoutingOptions], the transport
    [makeOpenrouterCall], the two call modes [_callInStructuredOutputMode]
    and [_callInJSONMode], and the entry point [makeLLMCall].

    Conventions of the embedding.
    - A JavaScript string is a [string] whose characters are read as
      UTF-16 code units below 256.
    - A JavaScript number is a safe integer, an integer [Z] of absolute
      value at most 2^53 - 1 (the numbers the client meets are HTTP
      statuses, error codes and lengths); [Js.safe] says so of a value, and
      is a hypothesis where the text of a number is stated.
    - [async]/[await] is sequential here: a computation is a function
      from the trace of effects so far to a completion (a value or a
      thrown value) and the extended trace.
    - What the JavaScript runtime and the npm packages provide
      ([fetch], [JSON.parse], [JSON.stringify], [zodToJsonSchema],
      [process.env]) is a field of the record [Runtime]. *)

From Stdlib Require Import ZArith List String Ascii Bool Lia DecimalString.
Import ListNotations.
Local Open Scope string_scope.
Local Open Scope Z_scope.

Set Warnings "-register-all".

(** ** JavaScript values *)

Module Js.

(** A line feed, and a double quote, as one-character strings. *)
Definition LF : string := String "010"%char EmptyString.
Definition DQ : string := String "034"%char EmptyString.

(** The values [JSON.parse] and [response.json()] can produce, and
    [undefined]. An object keeps its members in insertion order; the first
    member with a given key is the property of that name. *)
Inductive value : Type :=
| Undefined
| Null
| Bool (b : bool)
| Num (n : Z)
| Str (s : string)
| Arr (items : list value)
| Obj (members : list (string * value)).

(** The error classes that occur. *)
Inductive error_class : Type := ClsError | ClsTypeError | ClsSyntaxError | ClsDOMException.

(** What a [throw] (or a rejected promise) carries: an instance of [Error]
    (or of a subclass) with its message, or any other value. *)
Inductive thrown : Type :=
| ErrorObject (cls : error_class) (message : string)
| NonError (v : value).

(** [error instanceof Error] *)
Definition instanceof_Error (e : thrown) : bool :=
  match e with ErrorObject _ _ => true | NonError _ => false end.

(** [new Error(message)] *)
Definition new_Error (message : string) : thrown := ErrorObject ClsError message.

(** The outcome of evaluating an expression or awaiting a promise. *)
Inductive completion (A : Type) : Type :=
| Return (a : A)
| Throw (e : thrown).
Arguments Return {A} a.
Arguments Throw {A} e.

(** ToBoolean *)
Definition truthy (v : value) : bool :=
  match v with
  | Undefined | Null => false
  | Bool b => b
  | Num n => negb (n =? 0)
  | Str s => negb (String.eqb s EmptyString)
  | Arr _ | Obj _ => true
  end.

(** [a || b] on values *)
Definition or_else (a b : value) : value := if truthy a then a else b.

(** [Number.MAX_SAFE_INTEGER], 2^53 - 1. *)
Definition MAX_SAFE_INTEGER : Z := 9007199254740991.

(** Every number in the value is a safe integer. Only these stand for
    JavaScript numbers here: a larger integer is not printed in decimal by
    JavaScript (exponent form from 1e21 on, rounded digits before). *)
Fixpoint safe (v : value) : bool :=
  match v with
  | Num n => Z.abs n <=? MAX_SAFE_INTEGER
  | Arr items =>
      (fix all (l : list value) : bool :=
         match l with
         | [] => true
         | x :: rest => safe x && all rest
         end) items
  | Obj members =>
      (fix all (l : list (string * value)) : bool :=
         match l with
         | [] => true
         | (_, x) :: rest => safe x && all rest
         end) members
  | _ => true
  end.

(** ToString does not throw on the value. On an object it calls the
    [toString] method; an own member [toString] of a decoded JSON object is
    not callable and hides the inherited method, the inherited [valueOf]
    returns the object, and the conversion throws a TypeError. An array
    converts its items. *)
Fixpoint stringifies (v : value) : bool :=
  match v with
  | Obj members =>
      negb (List.existsb (fun member => String.eqb (fst member) "toString") members)
  | Arr items =>
      (fix all (l : list value) : bool :=
         match l with
         | [] => true
         | x :: rest => stringifies x && all rest
         end) items
  | _ => true
  end.

(** The TypeError of a conversion that throws, with the message of V8. *)
Definition cannot_convert : thrown :=
  ErrorObject ClsTypeError "Cannot convert object to primitive value".

(** Number::toString for a safe integer. *)
Definition number_to_string (n : Z) : string := NilZero.string_of_int (Z.to_int n).

(** ToString, as a template literal applies it, of a value that is [safe]
    and on which the conversion does not throw ([stringifies]). An array
    joins its items with commas, [null] and [undefined] items giving the
    empty string. *)
Fixpoint to_string (v : value) : string :=
  match v with
  | Undefined => "undefined"
  | Null => "null"
  | Bool true => "true"
  | Bool false => "false"
  | Num n => number_to_string n
  | Str s => s
  | Arr items =>
      let item (x : value) : string :=
        match x with Undefined | Null => EmptyString | _ => to_string x end in
      (fix join (l : list value) : string :=
         match l with
         | [] => EmptyString
         | [x] => item x
         | x :: rest => item x ++ "," ++ join rest
         end) items
  | Obj _ => "[object Object]"
  end.

Fixpoint lookup (key : string) (members : list (string * value)) : value :=
  match members with
  | [] => Undefined
  | (k, v) :: rest => if String.eqb k key then v else lookup key rest
  end.

(** The message V8 gives to the TypeError of a property read on [null] or
    [undefined]. *)
Definition cannot_read (v : value) (key : string) : thrown :=
  ErrorObject ClsTypeError
    ("Cannot read properties of " ++ to_string v ++ " (reading '" ++ key ++ "')").

(** [v.key] for a key that is not an array index. The only inherited
    property the client reads is [length]. *)
Definition get (v : value) (key : string) : completion value :=
  match v with
  | Undefined | Null => Throw (cannot_read v key)
  | Obj members => Return (lookup key members)
  | Arr items =>
      Return (if String.eqb key "length" then Num (Z.of_nat (List.length items)) else Undefined)
  | Str s =>
      Return (if String.eqb key "length" then Num (Z.of_nat (String.length s)) else Undefined)
  | Bool _ | Num _ => Return Undefined
  end.

(** [v[0]] *)
Definition get0 (v : value) : completion value :=
  match v with
  | Undefined | Null => Throw (cannot_read v "0")
  | Obj members => Return (lookup "0" members)
  | Arr items => Return (match items with x :: _ => x | [] => Undefined end)
  | Str s => Return (match s with String c _ => Str (String c EmptyString) | EmptyString => Undefined end)
  | Bool _ | Num _ => Return Undefined
  end.

(** [v?.key] *)
Definition get_opt (v : value) (key : string) : completion value :=
  match v with
  | Undefined | Null => Return Undefined
  | _ => get v key
  end.

(** [a === 0] *)
Definition strict_eq_zero (v : value) : bool :=
  match v with Num n => n =? 0 | _ => false end.

End Js.

(** ** String operations of the JSON-mode cleaning step *)

Module Text.

(** WhiteSpace and LineTerminator code units below 256: TAB, LF, VT, FF, CR,
    SP and NBSP. *)
Definition is_space (c : ascii) : bool :=
  match nat_of_ascii c with
  | 9%nat | 10%nat | 11%nat | 12%nat | 13%nat | 32%nat | 160%nat => true
  | _ => false
  end.

Fixpoint trimStart (s : string) : string :=
  match s with
  | EmptyString => EmptyString
  | String c rest => if is_space c then trimStart rest else s
  end.

Fixpoint trimEnd (s : string) : string :=
  match s with
  | EmptyString => EmptyString
  | String c rest =>
      match trimEnd rest with
      | EmptyString => if is_space c then EmptyString else String c EmptyString
      | kept => String c kept
      end
  end.

(** [s.trim()] *)
Definition trim (s : string) : string := trimEnd (trimStart s).

(** [Some rest] when [s] is [p] followed by [rest]. *)
Fixpoint after_prefix (p s : string) : option string :=
  match p, s with
  | EmptyString, _ => Some s
  | String a p', String b s' => if Ascii.eqb a b then after_prefix p' s' else None
  | String _ _, EmptyString => None
  end.

Definition fence : string := "```".
Definition open_fence : string := "```json".

(** [s.replace(/^```json\n?/, '')]: the pattern is anchored at the start, so
    only position 0 is tried; the line feed is taken when it is there. *)
Definition strip_open_fence (s : string) : string :=
  match after_prefix open_fence s with
  | Some rest =>
      match after_prefix Js.LF rest with
      | Some rest' => rest'
      | None => rest
      end
  | None => s
  end.

(** [s.replace(/\n?```$/, '')]: the start positions are tried from the left;
    at a position the pattern matches when what remains of the string is
    a line feed and the fence, or the fence alone. The first match is
    replaced by the empty string. *)
Fixpoint strip_close_fence (s : string) : string :=
  if String.eqb s (Js.LF ++ fence) || String.eqb s fence then EmptyString
  else match s with
       | EmptyString => EmptyString
       | String c rest => String c (strip_close_fence rest)
       end.

(** Lines 442-445 of the source: the cleaning of [_callInJSONMode]. *)
Definition clean (rawContentString : string) : string :=
  trim (strip_close_fence (strip_open_fence rawContentString)).

End Text.

(** ** The client: data model *)

Module Client.
Import Js.

(** ['price' | 'throughput' | 'latency'] *)
Inductive ProviderSort : Type := price | throughput | latency.

Definition ProviderSort_string (s : ProviderSort) : string :=
  match s with
  | price => "price"
  | throughput => "throughput"
  | latency => "latency"
  end.

(** [interface RoutingOptions]; the nested [defaultRoutingOptions] of
    [ModelInfo] has the same three optional fields. [None] is an absent
    field. *)
Record RoutingOptions : Type := {
  providerSort : option ProviderSort;
  providerOrder : option (list string);
  ignoredProviders : option (list string)
}.

(** [interface ModelInfo] *)
Record ModelInfo : Type := {
  id : string;
  supportsStructuredOutput : bool;
  defaultRoutingOptions : option RoutingOptions
}.

(** The [providerPrefs] object: [require_parameters] and the three
    members that are assigned only under a test. [None] is a member that
    was never assigned. *)
Record ProviderPrefs : Type := {
  require_parameters : bool;
  sort : option ProviderSort;
  order : option (list string);
  ignore : option (list string)
}.

(** What [_buildRoutingOptions] returns. *)
Record Routing : Type := {
  provider : ProviderPrefs;
  models : list string
}.

Inductive Role : Type := system | user.

Record Message : Type := {
  role : Role;
  content : string
}.

(** [response_format]: [{type: "json_schema", json_schema: {name, strict,
    schema}}] or [{type: "json_object"}]. *)
Inductive ResponseFormat : Type :=
| json_schema (name : string) (strict : bool) (schema : value)
| json_object.

(** The request body posted to [/chat/completions]. *)
Module Request.
Record t : Type := {
  model : string;
  messages : list Message;
  response_format : ResponseFormat;
  provider : ProviderPrefs;
  models : list string
}.
End Request.

(** What the client reads of a fetch [Response]. [json] is the outcome of
    [response.json()]; [text] is the outcome of [response.text()] when it
    is called after [response.json()] has thrown. With the [fetch] of the
    standard that call always rejects, since [json()] has used the body;
    the field leaves it to the run time. *)
Record Response : Type := {
  ok : bool;
  status : Z;
  statusText : string;
  json : completion value;
  text : completion string
}.

(** A Zod schema, as far as the client uses it: [schema.safeParse(x)] gives
    [{success: true, data}] or [{success: false, error}], of which the
    client reads [error.message] and [error.format()]. *)
Inductive SafeParseReturn : Type :=
| ParseSuccess (data : value)
| ParseFailure (message : string) (formatted : value).

Record ZodType : Type := {
  safeParse : value -> SafeParseReturn
}.

(** ** Effects *)

Inductive Level : Type := LevelLog | LevelWarn | LevelError.

(** An argument of a console call. *)
Inductive Shown : Type :=
| ShowText (s : string)
| ShowValue (v : value)
| ShowThrown (e : thrown).

(** The observable effects: a POST of a request body, a console call. *)
Inductive Event : Type :=
| Posted (body : Request.t)
| Console (level : Level) (args : list Shown).

(** The trace holds the events, the latest first. *)
Definition Trace : Type := list Event.

Definition is_post (e : Event) : bool :=
  match e with Posted _ => true | Console _ _ => false end.

(** The requests posted so far, the latest first. *)
Fixpoint posts (t : Trace) : list Request.t :=
  match t with
  | [] => []
  | Posted body :: rest => body :: posts rest
  | Console _ _ :: rest => posts rest
  end.

(** What the run time and the packages provide. [fetch n body] is the
    outcome of the POST of [body] when [n] requests were posted before it:
    a response, or the rejection of the promise. [zodToJsonSchema sch opt]
    has the [removeAdditionalStrategy] option as [opt]. *)
Record Runtime : Type := {
  OPENROUTER_API_KEY : option string;
  fetch : nat -> Request.t -> completion Response;
  JSON_parse : string -> completion value;
  JSON_stringify : value -> string;
  zodToJsonSchema : ZodType -> option string -> completion value
}.

(** A computation: from the trace so far to a completion and the trace
    after it. A thrown value keeps the trace. *)
Definition M (A : Type) : Type := Trace -> completion A * Trace.

Definition ret {A} (a : A) : M A := fun t => (Return a, t).
Definition throw {A} (e : thrown) : M A := fun t => (Throw e, t).

Definition bind {A B} (m : M A) (k : A -> M B) : M B :=
  fun t =>
    match m t with
    | (Return a, t') => k a t'
    | (Throw e, t') => (Throw e, t')
    end.

(** [try { m } catch (e) { h e }] *)
Definition try_catch {A} (m : M A) (h : thrown -> M A) : M A :=
  fun t =>
    match m t with
    | (Return a, t') => (Return a, t')
    | (Throw e, t') => h e t'
    end.

(** An expression that may throw. *)
Definition eval {A} (c : completion A) : M A := fun t => (c, t).

Definition emit (e : Event) : M unit := fun t => (Return tt, e :: t).

Definition console (level : Level) (args : list Shown) : M unit :=
  emit (Console level args).

Declare Scope client_scope.
Delimit Scope client_scope with client.
Notation "x <- m ;; k" := (bind m (fun x => k))
  (at level 61, m at next level, right associativity) : client_scope.
Notation "m ;;; k" := (bind m (fun _ => k))
  (at level 61, right associativity) : client_scope.
Local Open Scope client_scope.

(** ** The client: operations *)

(** [a?.f] on an optional object, [a ?? b]. *)
Definition opt_chain {A B} (a : option A) (f : A -> option B) : option B :=
  match a with Some x => f x | None => None end.

Definition nullish {A} (a b : option A) : option A :=
  match a with Some x => Some x | None => b end.

(** [if (finalSort)]: an absent value is falsy, a string is truthy unless
    it is empty. *)
Definition sort_truthy (s : option ProviderSort) : bool :=
  match s with
  | Some v => truthy (Str (ProviderSort_string v))
  | None => false
  end.

(** [if (l && l.length > 0)] *)
Definition list_nonempty {A} (l : option (list A)) : bool :=
  match l with
  | Some v => (0 <? Z.of_nat (List.length v))%Z
  | None => false
  end.

Definition _buildRoutingOptions (primaryModel : ModelInfo) (backupModels : list ModelInfo)
    (overrideOptions : option RoutingOptions) : Routing :=
  let providerPrefs :=
    {| require_parameters := true; sort := None; order := None; ignore := None |} in
  let finalSort :=
    nullish (opt_chain overrideOptions providerSort)
            (opt_chain (defaultRoutingOptions primaryModel) providerSort) in
  let finalOrder :=
    nullish (opt_chain overrideOptions providerOrder)
            (opt_chain (defaultRoutingOptions primaryModel) providerOrder) in
  let finalIgnore :=
    nullish (opt_chain overrideOptions ignoredProviders)
            (opt_chain (defaultRoutingOptions primaryModel) ignoredProviders) in
  let providerPrefs :=
    if sort_truthy finalSort
    then {| require_parameters := require_parameters providerPrefs; sort := finalSort;
            order := order providerPrefs; ignore := ignore providerPrefs |}
    else providerPrefs in
  let providerPrefs :=
    if list_nonempty finalOrder
    then {| require_parameters := require_parameters providerPrefs; sort := sort providerPrefs;
            order := finalOrder; ignore := ignore providerPrefs |}
    else providerPrefs in
  let providerPrefs :=
    if list_nonempty finalIgnore
    then {| require_parameters := require_parameters providerPrefs; sort := sort providerPrefs;
            order := order providerPrefs; ignore := finalIgnore |}
    else providerPrefs in
  let fallbackModelIds :=
    if (0 <? Z.of_nat (List.length backupModels))%Z
    then List.map id backupModels
    else [] in
  {| provider := providerPrefs; models := fallbackModelIds |}.

(** The messages of the errors the client creates. *)
Definition msg_no_api_key : string :=
  "OPENROUTER_API_KEY is not set in environment variables".
Definition msg_no_content : string :=
  "OpenRouter response was successful (200 OK) but contained no valid choices or content. This might be due to model warm-up, scaling, or content filtering. Consider retrying, adjusting prompts, or using a different model/provider.".
Definition msg_unknown_transport : string :=
  "An unknown error occurred during the OpenRouter API call process.".
Definition msg_structured_parse : string :=
  "Failed to parse structured output from LLM response.".
Definition msg_unknown_structured : string :=
  "An unknown error occurred processing the LLM API response.".
Definition msg_json_parse : string :=
  "Failed to parse JSON output from LLM response even after cleaning.".
Definition msg_unknown_json : string :=
  "An unknown error occurred during the JSON LLM API call.".
Definition msg_unreadable_body : string := "<Could not read error body>".

(** [`OpenRouter API request failed (${errorCode}): ${errorMessage}`] *)
Definition request_failed_message (errorCode errorMessage : value) : string :=
  "OpenRouter API request failed (" ++ to_string errorCode ++ "): " ++ to_string errorMessage.

(** Line 291: the template literal converts the code, then the message,
    and throws when a conversion throws. *)
Definition finalErrorMessage (errorCode errorMessage : value) : completion string :=
  if stringifies errorCode && stringifies errorMessage
  then Return (request_failed_message errorCode errorMessage)
  else Throw cannot_convert.

(** [!OPENROUTER_API_KEY]: the variable is unset, or set to the empty
    string. *)
Definition api_key_missing (key : option string) : bool :=
  match key with
  | Some k => negb (truthy (Str k))
  | None => true
  end.

(** The test of line 257:
    [!data.choices || data.choices.length === 0 || !data.choices[0].message?.content] *)
Definition no_content (data : value) : completion bool :=
  match get data "choices" with
  | Throw e => Throw e
  | Return choices =>
      if negb (truthy choices) then Return true
      else match get choices "length" with
           | Throw e => Throw e
           | Return len =>
               if strict_eq_zero len then Return true
               else match get0 choices with
                    | Throw e => Throw e
                    | Return first =>
                        match get first "message" with
                        | Throw e => Throw e
                        | Return message =>
                            match get_opt message "content" with
                            | Throw e => Throw e
                            | Return c => Return (negb (truthy c))
                            end
                        end
                    end
           end
  end.

(** [data.choices[0].message.content] *)
Definition first_content (data : value) : completion value :=
  match get data "choices" with
  | Throw e => Throw e
  | Return choices =>
      match get0 choices with
      | Throw e => Throw e
      | Return first =>
          match get first "message" with
          | Throw e => Throw e
          | Return message => get message "content"
          end
      end
  end.

Section WithRuntime.

Variable rt : Runtime.

(** [await fetch(url, {method: 'POST', headers, body: JSON.stringify(requestBody)})] *)
Definition post (requestBody : Request.t) : M Response :=
  fun t => (fetch rt (List.length (posts t)) requestBody, Posted requestBody :: t).

(** Lines 267-289: the error code, the error message and the error details
    of a response that is not ok. No read in the [try] block throws (the
    receivers are truthy), so the [catch] block runs only when
    [response.json()] has thrown, with the code and the message still at
    their initial values. *)
Definition read_error_body (response : Response) : M (value * value * value) :=
  let errorCode := Num (status response) in
  let errorMessage := Str (statusText response) in
  try_catch
    (errorJson <- eval (json response) ;;
     err <- (if truthy errorJson then eval (get errorJson "error") else ret errorJson) ;;
     if truthy err then
       code <- eval (get err "code") ;;
       let errorCode := or_else code errorCode in
       message <- eval (get err "message") ;;
       let errorMessage := or_else message errorMessage in
       metadata <- eval (get err "metadata") ;;
       let errorDetails :=
         Obj [("code", errorCode); ("message", errorMessage); ("metadata", metadata)] in
       console LevelError [ShowText "OpenRouter API Structured Error:"; ShowValue errorDetails] ;;;
       ret (errorCode, errorMessage, errorDetails)
     else
       let errorDetails := errorJson in
       console LevelError
         [ShowText ("OpenRouter API Error (" ++ number_to_string (status response)
                    ++ "): Non-standard JSON response");
          ShowValue errorDetails] ;;;
       ret (errorCode, errorMessage, errorDetails))
    (fun jsonError =>
       let errorDetails :=
         match text response with
         | Return body => Str body
         | Throw textError => Str msg_unreadable_body
         end in
       console LevelError
         [ShowText ("OpenRouter API Error (" ++ number_to_string (status response)
                    ++ "): Raw text response");
          ShowValue errorDetails] ;;;
       ret (errorCode, errorMessage, errorDetails)).

(** Lines 236-304. The result is typed [string] in the source; what is
    returned is whatever truthy value [content] holds. *)
Definition makeOpenrouterCall (requestBody : Request.t) : M value :=
  if api_key_missing (OPENROUTER_API_KEY rt) then throw (new_Error msg_no_api_key)
  else
    try_catch
      (response <- post requestBody ;;
       if ok response then
         data <- eval (json response) ;;
         missing <- eval (no_content data) ;;
         if missing then
           console LevelWarn
             [ShowText "OpenRouter Warning: Response OK but no content generated.";
              ShowValue data] ;;;
           throw (new_Error msg_no_content)
         else eval (first_content data)
       else
         details <- read_error_body response ;;
         let '(errorCode, errorMessage, _) := details in
         message <- eval (finalErrorMessage errorCode errorMessage) ;;
         throw (new_Error message))
      (fun error =>
         console LevelError
           [ShowText "Error during _makeOpenrouterCall execution:"; ShowThrown error] ;;;
         if instanceof_Error error then throw error
         else throw (new_Error msg_unknown_transport)).

(** [x = d] in a destructured parameter: the default when [x] is absent. *)
Definition default_to {A} (d : A) (x : option A) : A :=
  match x with Some v => v | None => d end.

(** [s || d] on an optional string. *)
Definition string_or (s : option string) (d : string) : string :=
  match s with
  | Some v => if truthy (Str v) then v else d
  | None => d
  end.

Definition rethrow_or (error : thrown) (unknown : string) : M value :=
  if instanceof_Error error then throw error else throw (new_Error unknown).

(** Lines 328-358: the request body of the structured mode. *)
Definition structured_request (systemPrompt userPrompt : string)
    (primaryModel : ModelInfo) (backupModels : list ModelInfo)
    (schemaName : string) (finalJsonSchema : value)
    (routingOptions : option RoutingOptions) : Request.t :=
  let messages :=
    [ {| role := system; content := systemPrompt |};
      {| role := user; content := userPrompt |} ] in
  let routing := _buildRoutingOptions primaryModel backupModels routingOptions in
  {| Request.model := id primaryModel;
     Request.messages := messages;
     Request.response_format := json_schema schemaName true finalJsonSchema;
     Request.provider := provider routing;
     Request.models := models routing |}.

(** Lines 310-393. *)
Definition _callInStructuredOutputMode (systemPrompt userPrompt : string)
    (primaryModel : ModelInfo) (backupModels : option (list ModelInfo))
    (schema : ZodType) (schemaName : option string)
    (routingOptions : option RoutingOptions) : M value :=
  let backupModels := default_to [] backupModels in
  let schemaName := default_to "response" schemaName in
  finalJsonSchema <- eval (zodToJsonSchema rt schema None) ;;
  let requestBody :=
    structured_request systemPrompt userPrompt primaryModel backupModels schemaName
      finalJsonSchema routingOptions in
  try_catch
    (contentString <- makeOpenrouterCall requestBody ;;
     parsedContent <-
       try_catch (eval (JSON_parse rt (to_string contentString)))
         (fun parseError =>
            console LevelError
              [ShowText "Failed to parse JSON content string from OpenRouter response:";
               ShowValue contentString; ShowThrown parseError] ;;;
            throw (new_Error msg_structured_parse)) ;;
     match safeParse schema parsedContent with
     | ParseFailure message formatted =>
         console LevelError
           [ShowText "Zod validation failed for OpenRouter response:"; ShowValue formatted] ;;;
         console LevelError
           [ShowText ("Raw content: " ++ to_string contentString ++ " and parsed content: "
                      ++ JSON_stringify rt parsedContent)] ;;;
         throw (new_Error ("LLM response failed Zod validation: " ++ message))
     | ParseSuccess data => ret data
     end)
    (fun error =>
       console LevelError
         [ShowText "Error processing OpenRouter response in makeStructuredLLMCall:";
          ShowThrown error] ;;;
       rethrow_or error msg_unknown_structured).

Definition json_mode_system_prompt : string :=
  "You are an AI assistant. Your task is to respond STRICTLY with valid JSON format. Do NOT include any explanations, introductory text, or markdown code fences (like ```json). Only output the raw JSON object.".

(** Lines 442-445 on the value the transport returned: only a string has a
    [replace] method. *)
Definition clean_content (rawContentString : value) : completion string :=
  match rawContentString with
  | Str s => Return (Text.clean s)
  | _ => Throw (ErrorObject ClsTypeError "rawContentString.replace is not a function")
  end.

(** Lines 414-435: the request body of the JSON mode. *)
Definition json_mode_request (systemPrompt : option string) (userPrompt : string)
    (primaryModel : ModelInfo) (backupModels : list ModelInfo)
    (routingOptions : option RoutingOptions) : Request.t :=
  let actualSystemPrompt := string_or systemPrompt json_mode_system_prompt in
  let messages :=
    [ {| role := system; content := actualSystemPrompt |};
      {| role := user; content := userPrompt |} ] in
  let routing := _buildRoutingOptions primaryModel backupModels routingOptions in
  {| Request.model := id primaryModel;
     Request.messages := messages;
     Request.response_format := json_object;
     Request.provider := provider routing;
     Request.models := models routing |}.

(** Lines 399-469. *)
Definition _callInJSONMode (systemPrompt : option string) (userPrompt : string)
    (primaryModel : ModelInfo) (backupModels : option (list ModelInfo))
    (routingOptions : option RoutingOptions) : M value :=
  let backupModels := default_to [] backupModels in
  let requestBody :=
    json_mode_request systemPrompt userPrompt primaryModel backupModels routingOptions in
  try_catch
    (rawContentString <- makeOpenrouterCall requestBody ;;
     cleanedContent <- eval (clean_content rawContentString) ;;
     try_catch (eval (JSON_parse rt cleanedContent))
       (fun parseError =>
          console LevelError
            [ShowText "Failed to parse JSON content string from OpenRouter JSON mode response:";
             ShowThrown parseError] ;;;
          console LevelError
            [ShowText "Cleaned Content that failed parsing:"; ShowText cleanedContent] ;;;
          console LevelError
            [ShowText "Raw Content received:"; ShowValue rawContentString] ;;;
          throw (new_Error msg_json_parse)))
    (fun error =>
       console LevelError [ShowText "Error during makeJSONLLMCall:"; ShowThrown error] ;;;
       rethrow_or error msg_unknown_json).

(** The parameter object of [makeLLMCall]. *)
Record CallOptions : Type := {
  systemPrompt : option string;
  userPrompt : string;
  primaryModel : ModelInfo;
  backupModels : option (list ModelInfo);
  schema : option ZodType;
  schemaName : option string;
  forceJsonMode : option bool;
  routingOptions : option RoutingOptions
}.

Definition structured_system_prompt : string :=
  "You are a helpful AI assistant designed to output structured data according to the provided schema.".

(** The test of line 496:
    [primaryModel.supportsStructuredOutput && schema && !forceJsonMode] *)
Definition structured_first (o : CallOptions) : bool :=
  supportsStructuredOutput (primaryModel o)
  && (match schema o with Some _ => true | None => false end)
  && negb (default_to false (forceJsonMode o)).

(** How the block of lines 496-520 ends: with the [return] of the
    structured result, or by falling through with the current values of
    the variables [primaryModel] and [backupModels]. *)
Inductive Block : Type :=
| Returned (v : value)
| Continues (primaryModel : ModelInfo) (backupModels : list ModelInfo).

Definition using_structured (m : ModelInfo) : string :=
  "Using structured output mode for model: " ++ id m.

(** Lines 496-520. *)
Definition structured_block (o : CallOptions) : M Block :=
  let backups := default_to [] (backupModels o) in
  if structured_first o then
    match schema o with
    | Some sch =>
        console LevelLog [ShowText (using_structured (primaryModel o))] ;;;
        let actualSystemPrompt := string_or (systemPrompt o) structured_system_prompt in
        try_catch
          (v <- _callInStructuredOutputMode actualSystemPrompt (userPrompt o) (primaryModel o)
                  (Some backups) sch (Some (default_to "response" (schemaName o)))
                  (routingOptions o) ;;
           ret (Returned v))
          (fun error =>
             console LevelError
               [ShowText ("Structured output call failed for model " ++ id (primaryModel o)
                          ++ ". Falling back to JSON mode. Error:");
                ShowThrown error] ;;;
             match backups with
             | first :: rest =>
                 console LevelLog
                   [ShowText ("Swapped primary model to " ++ id first
                              ++ " for JSON mode fallback.")] ;;;
                 ret (Continues first rest)
             | [] => ret (Continues (primaryModel o) backups)
             end)
    | None => ret (Continues (primaryModel o) backups) (* the test excludes it *)
    end
  else ret (Continues (primaryModel o) backups).

(** Lines 524-530: the reason JSON mode is used, if any of the three
    holds for the current primary model. *)
Definition log_reason (o : CallOptions) (primary : ModelInfo) : M unit :=
  if default_to false (forceJsonMode o) then
    console LevelLog
      [ShowText ("forceJsonMode is true. Forcing JSON object mode for model: " ++ id primary)]
  else if negb (supportsStructuredOutput primary) then
    console LevelWarn
      [ShowText ("Model " ++ id primary
                 ++ " does not support structured output. Falling back to JSON object mode.")]
  else match schema o with
       | None =>
           console LevelWarn
             [ShowText ("Schema not provided. Falling back to JSON object mode for model: "
                        ++ id primary ++ ".")]
       | Some _ => ret tt
       end.

(** Lines 534-545: the user prompt, with the schema hint when there is a
    schema and its conversion does not throw. *)
Definition prompt_with_hint (o : CallOptions) : M string :=
  match schema o with
  | Some sch =>
      try_catch
        (jsonSchemaForHint <- eval (zodToJsonSchema rt sch (Some "strict")) ;;
         let promptForJsonMode :=
           userPrompt o ++ LF ++ LF
           ++ "--- JSON STRUCTURE HINT --- Please try to follow this structure:" ++ LF
           ++ JSON_stringify rt jsonSchemaForHint ++ LF
           ++ "--- END JSON STRUCTURE HINT ---" in
         console LevelLog [ShowText "Added schema hint to prompt for JSON object mode."] ;;;
         ret promptForJsonMode)
        (fun schemaError =>
           console LevelError
             [ShowText "Failed to generate JSON schema for hint, proceeding without hint:";
              ShowThrown schemaError] ;;;
           ret (userPrompt o))
  | None => ret (userPrompt o)
  end.

(** Lines 522-554, for the current primary and backup models. *)
Definition json_stage (o : CallOptions) (primary : ModelInfo) (backups : list ModelInfo)
    : M value :=
  log_reason o primary ;;;
  promptForJsonMode <- prompt_with_hint o ;;
  _callInJSONMode (systemPrompt o) promptForJsonMode primary (Some backups) (routingOptions o).

(** Lines 475-555. *)
Definition makeLLMCall (o : CallOptions) : M value :=
  b <- structured_block o ;;
  match b with
  | Returned v => ret v
  | Continues primary backups => json_stage o primary backups
  end.

End WithRuntime.

End Client.

(** ** A reader and a printer for the integer fragment of JSON

    [JSON.parse] and [JSON.stringify] belong to the run time and are fields
    of [Runtime]. The examples instantiate them with this reader of the
    JSON texts whose numbers are integers and whose strings have no [\u]
    escape, and with this printer. *)

Module Reader.
Import Js.

Definition is_json_space (c : ascii) : bool :=
  match nat_of_ascii c with
  | 9%nat | 10%nat | 13%nat | 32%nat => true
  | _ => false
  end.

Fixpoint skip_spaces (s : string) : string :=
  match s with
  | String c rest => if is_json_space c then skip_spaces rest else s
  | EmptyString => s
  end.

Definition digit_of (c : ascii) : option Z :=
  let n := nat_of_ascii c in
  if ((48 <=? n) && (n <=? 57))%nat then Some (Z.of_nat (n - 48)) else None.

(** The digits at the head of [s], as a number continuing [acc]. *)
Fixpoint read_digits (acc : Z) (s : string) : Z * string :=
  match s with
  | String c rest =>
      match digit_of c with
      | Some d => read_digits (10 * acc + d) rest
      | None => (acc, s)
      end
  | EmptyString => (acc, s)
  end.

Definition read_natural (s : string) : option (Z * string) :=
  match s with
  | String c rest =>
      match digit_of c with
      | Some 0 => Some (0, rest)
      | Some d => Some (read_digits d rest)
      | None => None
      end
  | EmptyString => None
  end.

(** The characters of a string literal after its opening quote. *)
Fixpoint read_string (s : string) : option (string * string) :=
  match s with
  | EmptyString => None
  | String c rest =>
      if Ascii.eqb c "034" then Some (EmptyString, rest)
      else if Ascii.eqb c "092" then
        match rest with
        | String e rest' =>
            let unescaped :=
              if Ascii.eqb e "034" then Some "034"%char
              else if Ascii.eqb e "092" then Some "092"%char
              else if Ascii.eqb e "/" then Some "/"%char
              else if Ascii.eqb e "n" then Some "010"%char
              else if Ascii.eqb e "t" then Some "009"%char
              else if Ascii.eqb e "r" then Some "013"%char
              else if Ascii.eqb e "b" then Some "008"%char
              else if Ascii.eqb e "f" then Some "012"%char
              else None in
            match unescaped, read_string rest' with
            | Some u, Some (body, after) => Some (String u body, after)
            | _, _ => None
            end
        | EmptyString => None
        end
      else if (nat_of_ascii c <? 32)%nat then None
      else match read_string rest with
           | Some (body, after) => Some (String c body, after)
           | None => None
           end
  end.

Fixpoint read_value (fuel : nat) (s : string) : option (value * string) :=
  match fuel with
  | O => None
  | S fuel' =>
      match skip_spaces s with
      | String "{" rest =>
          match skip_spaces rest with
          | String "}" after => Some (Obj [], after)
          | _ => read_members fuel' rest []
          end
      | String "[" rest =>
          match skip_spaces rest with
          | String "]" after => Some (Arr [], after)
          | _ => read_items fuel' rest []
          end
      | String "034" rest =>
          match read_string rest with
          | Some (body, after) => Some (Str body, after)
          | None => None
          end
      | String "-" rest =>
          match read_natural rest with
          | Some (n, after) => Some (Num (- n), after)
          | None => None
          end
      | other =>
          match Text.after_prefix "null" other, Text.after_prefix "true" other,
                Text.after_prefix "false" other with
          | Some after, _, _ => Some (Null, after)
          | _, Some after, _ => Some (Bool true, after)
          | _, _, Some after => Some (Bool false, after)
          | _, _, _ =>
              match read_natural other with
              | Some (n, after) => Some (Num n, after)
              | None => None
              end
          end
      end
  end
with read_items (fuel : nat) (s : string) (seen : list value) : option (value * string) :=
  match fuel with
  | O => None
  | S fuel' =>
      match read_value fuel' s with
      | Some (v, after) =>
          match skip_spaces after with
          | String "," rest => read_items fuel' rest (v :: seen)
          | String "]" rest => Some (Arr (List.rev (v :: seen)), rest)
          | _ => None
          end
      | None => None
      end
  end
with read_members (fuel : nat) (s : string) (seen : list (string * value))
    : option (value * string) :=
  match fuel with
  | O => None
  | S fuel' =>
      match skip_spaces s with
      | String "034" rest =>
          match read_string rest with
          | Some (key, after) =>
              match skip_spaces after with
              | String ":" rest' =>
                  match read_value fuel' rest' with
                  | Some (v, after') =>
                      match skip_spaces after' with
                      | String "," rest'' => read_members fuel' rest'' ((key, v) :: seen)
                      | String "}" rest'' => Some (Obj (List.rev ((key, v) :: seen)), rest'')
                      | _ => None
                      end
                  | None => None
                  end
              | _ => None
              end
          | None => None
          end
      | _ => None
      end
  end.

Definition syntax_error : thrown := ErrorObject ClsSyntaxError "Unexpected token in JSON".

(** The whole text must be one value, spaces apart. A number may not go on
    with a fraction or an exponent here. *)
Definition parse (s : string) : completion value :=
  match read_value (2 * String.length s + 2) s with
  | Some (v, after) =>
      match skip_spaces after with
      | EmptyString => Return v
      | _ => Throw syntax_error
      end
  | None => Throw syntax_error
  end.

(** [JSON.stringify(v, null, 2)] for the values above: two spaces of
    indentation, members whose value is [undefined] left out, [undefined]
    items of an array printed as [null]. *)
Definition BS : string := String "092"%char EmptyString.

Definition hex_digit (n : nat) : string :=
  String (ascii_of_nat (if (n <? 10)%nat then 48 + n else 87 + n)) EmptyString.

Definition escape (c : ascii) : string :=
  let n := nat_of_ascii c in
  if (n =? 34)%nat then BS ++ DQ
  else if (n =? 92)%nat then BS ++ BS
  else if (n =? 8)%nat then BS ++ "b"
  else if (n =? 9)%nat then BS ++ "t"
  else if (n =? 10)%nat then BS ++ "n"
  else if (n =? 12)%nat then BS ++ "f"
  else if (n =? 13)%nat then BS ++ "r"
  else if (n <? 32)%nat then BS ++ "u00" ++ hex_digit (n / 16) ++ hex_digit (n mod 16)
  else String c EmptyString.

Fixpoint escape_all (s : string) : string :=
  match s with
  | EmptyString => EmptyString
  | String c rest => escape c ++ escape_all rest
  end.

Definition quote (s : string) : string := DQ ++ escape_all s ++ DQ.

Fixpoint join_lines (lines : list string) : string :=
  match lines with
  | [] => EmptyString
  | [l] => l
  | l :: rest => l ++ "," ++ LF ++ join_lines rest
  end.

Fixpoint print (indent : string) (v : value) : string :=
  let inner := indent ++ "  " in
  match v with
  | Undefined | Null => "null"
  | Bool true => "true"
  | Bool false => "false"
  | Num n => number_to_string n
  | Str s => quote s
  | Arr items =>
      match (fix lines (l : list value) : list string :=
               match l with
               | [] => []
               | x :: rest => (inner ++ print inner x) :: lines rest
               end) items with
      | [] => "[]"
      | ls => "[" ++ LF ++ join_lines ls ++ LF ++ indent ++ "]"
      end
  | Obj members =>
      match (fix lines (l : list (string * value)) : list string :=
               match l with
               | [] => []
               | (_, Undefined) :: rest => lines rest
               | (k, x) :: rest => (inner ++ quote k ++ ": " ++ print inner x) :: lines rest
               end) members with
      | [] => "{}"
      | ls => "{" ++ LF ++ join_lines ls ++ LF ++ indent ++ "}"
      end
  end.

Definition stringify (v : value) : string := print EmptyString v.

End Reader.

(** ** The model registry of the source, and example worlds *)

Module Models.
Import Client.

Definition plain (model_id : string) (structured : bool) : ModelInfo :=
  {| id := model_id; supportsStructuredOutput := structured; defaultRoutingOptions := None |}.

Definition cheap_without_InferenceNet (withSort : bool) : RoutingOptions :=
  {| providerSort := if withSort then Some price else None;
     providerOrder := None;
     ignoredProviders := Some ["InferenceNet"] |}.

Definition GPT4o := plain "openai/chatgpt-4o-latest" true.
Definition GPT4_1Mini := plain "openai/gpt-4.1-mini" true.
Definition GPT4_1Nano := plain "openai/gpt-4.1-nano" true.
Definition GPT35Turbo := plain "openai/gpt-3.5-turbo-0125" false.
Definition O3Mini := plain "openai/o3-mini" true.
Definition GeminiPro := plain "google/gemini-pro-1.5" true.
Definition GeminiFlash := plain "google/gemini-2.0-flash-001" true.
Definition Claude := plain "anthropic/claude-3.5-sonnet" true.
Definition DeepseekR1 : ModelInfo :=
  {| id := "deepseek/deepseek-r1"; supportsStructuredOutput := true;
     defaultRoutingOptions := Some (cheap_without_InferenceNet true) |}.
Definition DeepseekV3 : ModelInfo :=
  {| id := "deepseek/deepseek-chat-v3-0324"; supportsStructuredOutput := true;
     defaultRoutingOptions := Some (cheap_without_InferenceNet true) |}.
Definition DeepseekR1DistillLlama70B : ModelInfo :=
  {| id := "deepseek/deepseek-r1-distill-llama-70b"; supportsStructuredOutput := true;
     defaultRoutingOptions := Some (cheap_without_InferenceNet true) |}.
Definition DeepseekR1DistillQwen32B : ModelInfo :=
  {| id := "deepseek/deepseek-r1-distill-qwen-32b"; supportsStructuredOutput := false;
     defaultRoutingOptions := Some (cheap_without_InferenceNet false) |}.
Definition QwenQwq32B := plain "qwen/qwq-32b" true.

(** [Models]: the record from symbolic name to model. *)
Definition Models : list (string * ModelInfo) :=
  [ ("GPT4o", GPT4o); ("GPT4_1Mini", GPT4_1Mini); ("GPT4_1Nano", GPT4_1Nano);
    ("GPT35Turbo", GPT35Turbo); ("O3Mini", O3Mini); ("GeminiPro", GeminiPro);
    ("GeminiFlash", GeminiFlash); ("Claude", Claude); ("DeepseekR1", DeepseekR1);
    ("DeepseekV3", DeepseekV3); ("DeepseekR1DistillLlama70B", DeepseekR1DistillLlama70B);
    ("DeepseekR1DistillQwen32B", DeepseekR1DistillQwen32B); ("QwenQwq32B", QwenQwq32B) ].

End Models.

Module World.
Import Js Client.

(** A schema that accepts no value, and one that accepts every value as
    it is. *)
Definition z_never : ZodType :=
  {| safeParse := fun _ => ParseFailure "Invalid input" (Obj [("_errors", Arr [Str "Invalid input"])]) |}.
Definition z_any : ZodType :=
  {| safeParse := fun v => ParseSuccess v |}.

(** A response that is ok, with [content] as the content of its first
    choice. *)
Definition completion_body (content : value) : value :=
  Obj [("choices", Arr [Obj [("message", Obj [("role", Str "assistant"); ("content", content)])]])].

Definition ok_response (data : value) : Response :=
  {| ok := true; status := 200; statusText := "OK"; json := Return data;
     text := Throw (ErrorObject ClsTypeError "Body is unusable") |}.

Definition replies (content : string) : Response := ok_response (completion_body (Str content)).

(** A response that is not ok, with a JSON body. *)
Definition error_response (code : Z) (reason : string) (data : value) : Response :=
  {| ok := false; status := code; statusText := reason; json := Return data;
     text := Throw (ErrorObject ClsTypeError "Body is unusable") |}.

(** A response that is not ok, whose body is not JSON: [response.json()]
    throws, and [response.text()] after it rejects, the body being used. *)
Definition raw_error_response (code : Z) (reason : string) : Response :=
  {| ok := false; status := code; statusText := reason;
     json := Throw (ErrorObject ClsSyntaxError "Unexpected token < in JSON at position 0");
     text := Throw (ErrorObject ClsTypeError "Body is unusable") |}.

(** A run time whose [n]-th POST has the outcome [nth n outcomes], and a
    failed connection after them. *)
Definition scripted (key : option string) (outcomes : list (completion Response)) : Runtime :=
  {| OPENROUTER_API_KEY := key;
     fetch := fun n _ =>
       List.nth n outcomes (Throw (ErrorObject ClsTypeError "fetch failed"));
     JSON_parse := Reader.parse;
     JSON_stringify := Reader.stringify;
     zodToJsonSchema := fun _ _ =>
       Return (Obj [("type", Str "object"); ("additionalProperties", Bool false)]) |}.

Definition key : option string := Some "sk-or-v1-test".

(** The fenced answer of the specification, the same without fences, and
    the fenced answer followed by a line feed. *)
Definition bare_answer : string := "{" ++ DQ ++ "a" ++ DQ ++ ":1}".
Definition fenced_answer : string := "```json" ++ LF ++ bare_answer ++ LF ++ "```".
Definition fenced_answer_newline : string := fenced_answer ++ LF.

(** [{"error":{"code":429,"message":"rate limited"}}], with [metadata] when
    given. *)
Definition rate_limited (metadata : option value) : value :=
  Obj [("error",
        Obj ([("code", Num 429); ("message", Str "rate limited")]
             ++ match metadata with Some m => [("metadata", m)] | None => [] end))].

(** A request of the JSON mode. *)
Definition a_request : Request.t :=
  json_mode_request None "Return a JSON object." Models.DeepseekR1 [Models.Claude] None.

Definition call (primary : ModelInfo) (backups : list ModelInfo) (sch : option ZodType)
    (force : option bool) : CallOptions :=
  {| systemPrompt := None;
     userPrompt := "Return a JSON object.";
     primaryModel := primary;
     backupModels := match backups with [] => None | _ => Some backups end;
     schema := sch;
     schemaName := None;
     forceJsonMode := force;
     routingOptions := None |}.

End World.

(** ** Notions used to state the properties *)

Module Spec.
Import Js Client.

(** The precedence rule of the routing fields in the words of the
    specification: the override value when one is supplied, otherwise the
    model's default value, otherwise nothing. *)
Definition preferred {A} (override default : option A) : option A :=
  match override with
  | Some v => Some v
  | None => default
  end.

(** A field of the optional override object, of the optional defaults of a
    model. *)
Definition override_field {A} (o : option RoutingOptions) (f : RoutingOptions -> option A)
    : option A :=
  match o with Some r => f r | None => None end.

Definition default_field {A} (m : ModelInfo) (f : RoutingOptions -> option A) : option A :=
  override_field (defaultRoutingOptions m) f.

(** An empty list counts as no list. *)
Definition omit_if_empty {A} (l : option (list A)) : option (list A) :=
  match l with
  | Some [] => None
  | other => other
  end.

(** [v.key] when it does not throw, [undefined] otherwise. *)
Definition member (v : value) (key : string) : value :=
  match get v key with Return x => x | Throw _ => Undefined end.

(** The [error] member of the JSON body of a response, when the body is
    JSON, is truthy and has a truthy [error] member. *)
Definition error_member (response : Response) : option value :=
  match json response with
  | Return body =>
      if truthy body && truthy (member body "error") then Some (member body "error") else None
  | Throw _ => None
  end.

(** The code and the message the failure of a response that is not ok
    reports, and the details that go to the console. *)
Definition reported_code (response : Response) : value :=
  match error_member response with
  | Some e => or_else (member e "code") (Num (status response))
  | None => Num (status response)
  end.

Definition reported_message (response : Response) : value :=
  match error_member response with
  | Some e => or_else (member e "message") (Str (statusText response))
  | None => Str (statusText response)
  end.

Definition logged_details (response : Response) : value :=
  match json response with
  | Return body =>
      match error_member response with
      | Some e =>
          Obj [("code", reported_code response); ("message", reported_message response);
               ("metadata", member e "metadata")]
      | None => body
      end
  | Throw _ =>
      match text response with
      | Return raw => Str raw
      | Throw _ => Str msg_unreadable_body
      end
  end.

(** What the [catch] blocks of the client do with a caught value. *)
Definition rethrown (unknown : string) (e : thrown) : thrown :=
  if instanceof_Error e then e else new_Error unknown.

(** The console line of the outer [catch] block of the transport. *)
Definition caught_line (e : thrown) : Event :=
  Console LevelError [ShowText "Error during _makeOpenrouterCall execution:"; ShowThrown e].

(** A request in structured mode; the console line that announces the
    structured mode. *)
Definition is_structured_request (e : Event) : bool :=
  match e with
  | Posted body =>
      match Request.response_format body with
      | json_schema _ _ _ => true
      | json_object => false
      end
  | Console _ _ => false
  end.

Definition is_structured_announcement (e : Event) : bool :=
  match e with
  | Console LevelLog [ShowText line] =>
      match Text.after_prefix "Using structured output mode for model: " line with
      | Some _ => true
      | None => false
      end
  | _ => false
  end.

(** A trace shows an attempt in structured mode when the mode was
    announced or a structured request was posted. *)
Definition attempts_structured (t : Trace) : bool :=
  List.existsb (fun e => is_structured_announcement e || is_structured_request e) t.

(** No space at the head of a text. *)
Definition head_kept (s : string) : Prop :=
  match s with
  | String c _ => Text.is_space c = false
  | EmptyString => True
  end.

(** The text still ends with the closing fence; it still starts with the
    opening fence. *)
Fixpoint ends_with_fence (s : string) : bool :=
  String.eqb s Text.fence
  || match s with
     | String _ rest => ends_with_fence rest
     | EmptyString => false
     end.

Definition starts_with_fence (s : string) : bool :=
  match Text.after_prefix Text.open_fence s with
  | Some _ => true
  | None => false
  end.

Definition still_fenced (s : string) : bool := starts_with_fence s || ends_with_fence s.

(** The outcome [p] of a computation extends the trace [base] by events
    that all satisfy [P]; a computation does so from every trace. *)
Definition reaches {A} (P : Event -> Prop) (base : Trace) (p : completion A * Trace) : Prop :=
  exists events : list Event, snd p = (events ++ base)%list /\ List.Forall P events.

Definition only {A} (P : Event -> Prop) (m : M A) : Prop :=
  forall t : Trace, reaches P t (m t).

(** [P] holds of the console lines of the client: the warnings, the errors,
    and the log lines other than the announcement of the structured
    mode. *)
Definition console_lines (P : Event -> Prop) : Prop :=
  (forall args, P (Console LevelWarn args))
  /\ (forall args, P (Console LevelError args))
  /\ (forall line,
        is_structured_announcement (Console LevelLog [ShowText line]) = false ->
        P (Console LevelLog [ShowText line])).

(** An event that is neither the announcement of the structured mode nor
    a structured request; an event that is not a request. *)
Definition unstructured (e : Event) : Prop :=
  is_structured_announcement e = false /\ is_structured_request e = false.

Definition not_a_post (e : Event) : Prop := is_post e = false.

(** The model and the backups the JSON mode gets after a failed
    structured attempt. *)
Definition demoted (primary : ModelInfo) (backups : list ModelInfo)
    : ModelInfo * list ModelInfo :=
  match backups with
  | first :: rest => (first, rest)
  | [] => (primary, [])
  end.

End Spec.

(** ** The [/ai] route of the server (apps/server/src/index.ts)

    The handler of [app.post("/ai", ...)], lines 52-86. The Hono context,
    the AI SDK and the environment are the fields of [Env]; what the
    handler does with them is the list of effects, the latest first. *)

Module Server.
Import Js Client.

(** What the handler returns: [c.json(body, status)], or the response of
    [stream(c, ...)] with the headers set on the context before it. *)
Inductive Reply : Type :=
| json_reply (body : value) (status : Z)
| stream_reply (headers : list (string * string)).

(** A console call, the call of [streamText] for a model and messages, the
    data stream piped to the response. *)
Inductive Effect : Type :=
| Logged (level : Level) (args : list Shown)
| Requested (model : string) (messages : value)
| Piped.

(** [request_json] is the outcome of [await c.req.json()]; [env_key] is
    [process.env.OPENROUTER_API_KEY]; [streamText] is the outcome of
    [streamText({model: openrouter(id), messages})]; [pipe] is the outcome
    of [await stream.pipe(result.toDataStream())]. *)
Record Env : Type := {
  request_json : completion value;
  env_key : option string;
  streamText : string -> value -> completion unit;
  pipe : completion unit
}.

Definition ai_model : string := "google/gemini-2.5-flash-preview-04-17".

Definition not_configured : value := Obj [("error", Str "AI provider not configured.")].
Definition failed_request : value :=
  Obj [("error", Str "Failed to process AI request with OpenRouter")].

Definition stream_headers : list (string * string) :=
  [("X-Vercel-AI-Data-Stream", "v1"); ("Content-Type", "text/plain; charset=utf-8")].

(** The outer [catch] block, lines 79-85. *)
Definition caught (error : thrown) (done : list Effect) : Reply * list Effect :=
  (json_reply failed_request 500,
   Logged LevelError [ShowText "Error in /ai endpoint (OpenRouter):"; ShowThrown error] :: done).

(** Lines 52-86. *)
Definition ai (env : Env) : Reply * list Effect :=
  match request_json env with
  | Throw error => caught error []
  | Return body =>
      match get body "messages" with
      | Throw error => caught error []
      | Return found =>
          let messages := or_else found (Arr []) in
          let done := [Logged LevelLog [ShowText "Request body for /ai:"; ShowValue body]] in
          if api_key_missing (env_key env) then
            (json_reply not_configured 500,
             Logged LevelError [ShowText "OPENROUTER_API_KEY is not set."] :: done)
          else
            let done := Requested ai_model messages :: done in
            match streamText env ai_model messages with
            | Throw error => caught error done
            | Return _ =>
                let done :=
                  match pipe env with
                  | Return _ => Piped :: done
                  | Throw error =>
                      Logged LevelError
                        [ShowText "Error streaming AI response from OpenRouter:";
                         ShowThrown error] :: done
                  end in
                (stream_reply stream_headers, done)
            end
      end
  end.

(** The model was asked for a completion. *)
Definition requested (done : list Effect) : bool :=
  List.existsb (fun e => match e with Requested _ _ => true | _ => false end) done.

(** A chat request; an environment that answers it, and one without the
    key. *)
Definition chat : value :=
  Obj [("messages", Arr [Obj [("role", Str "user"); ("content", Str "hello")]])].

Definition answering (key : option string) (body : completion value) (piped : completion unit)
    : Env :=
  {| request_json := body; env_key := key;
     streamText := fun _ _ => Return tt; pipe := piped |}.

End Server.

(** ** Further notions *)

Module Notions.
Import Js Client Spec.

(** A computation that throws instances of [Error] only. *)
Definition throws_errors {A} (m : M A) : Prop :=
  forall (t t' : Trace) (e : thrown), m t = (Throw e, t') -> instanceof_Error e = true.

(** A computation that returns from every trace. *)
Definition returns {A} (m : M A) : Prop :=
  forall t : Trace, exists (a : A) (t' : Trace), m t = (Return a, t').

(** A computation that posts at most [n] requests, after those posted
    before. *)
Definition adds {A} (n : nat) (m : M A) : Prop :=
  forall t : Trace,
    exists new : list Request.t,
      posts (snd (m t)) = (new ++ posts t)%list /\ (List.length new <= n)%nat.

(** The most one call of the transport posts: nothing without the key. *)
Definition per_call (rt : Runtime) : nat :=
  if api_key_missing (OPENROUTER_API_KEY rt) then 0 else 1.

(** The hint appended to the user prompt, line 540. *)
Definition hint (rt : Runtime) (jsonSchemaForHint : value) : string :=
  LF ++ LF ++ "--- JSON STRUCTURE HINT --- Please try to follow this structure:" ++ LF
  ++ JSON_stringify rt jsonSchemaForHint ++ LF ++ "--- END JSON STRUCTURE HINT ---".

(** The user prompt of the JSON mode: the prompt as given, followed by the
    hint when there is a schema and its conversion does not throw. *)
Definition expected_prompt (rt : Runtime) (o : CallOptions) : string :=
  match schema o with
  | Some sch =>
      match zodToJsonSchema rt sch (Some "strict") with
      | Return jsonSchemaForHint => userPrompt o ++ hint rt jsonSchemaForHint
      | Throw _ => userPrompt o
      end
  | None => userPrompt o
  end.

(** The requests a call with the options [o] may post: the structured
    request for the primary model, and the request of the JSON mode for
    the models as given or as demoted. *)
Definition the_structured_request (rt : Runtime) (o : CallOptions) (body : Request.t) : Prop :=
  exists (sch : ZodType) (js : value),
    structured_first o = true /\ schema o = Some sch
    /\ zodToJsonSchema rt sch None = Return js
    /\ body = structured_request (string_or (systemPrompt o) structured_system_prompt)
                (userPrompt o) (primaryModel o) (default_to [] (backupModels o))
                (default_to "response" (schemaName o)) js (routingOptions o).

Definition a_json_request (rt : Runtime) (o : CallOptions) (body : Request.t) : Prop :=
  exists (primary : ModelInfo) (rest : list ModelInfo),
    ((primary, rest) = (primaryModel o, default_to [] (backupModels o))
     \/ (structured_first o = true
         /\ (primary, rest) = demoted (primaryModel o) (default_to [] (backupModels o))))
    /\ body = json_mode_request (systemPrompt o) (expected_prompt rt o) primary rest
                (routingOptions o).

Definition planned (rt : Runtime) (o : CallOptions) (e : Event) : Prop :=
  match e with
  | Posted body => the_structured_request rt o body \/ a_json_request rt o body
  | Console _ _ => True
  end.

(** What every request of a call has: parameter support is required, the
    model is the primary model or a backup model, the fallback ids are ids
    of backup models, the messages are a system message and a user message
    that starts with the user prompt, and a schema format is strict. *)
Definition well_formed (o : CallOptions) (body : Request.t) : Prop :=
  require_parameters (Request.provider body) = true
  /\ List.In (Request.model body)
       (List.map id (primaryModel o :: default_to [] (backupModels o)))
  /\ List.incl (Request.models body) (List.map id (default_to [] (backupModels o)))
  /\ (exists instructions more : string,
         Request.messages body
         = [ {| role := system; content := instructions |};
             {| role := user; content := userPrompt o ++ more |} ])
  /\ match Request.response_format body with
     | json_schema _ strict _ => strict = true
     | json_object => True
     end.

(** No text occurs twice in the list. *)
Fixpoint distinct (l : list string) : bool :=
  match l with
  | [] => true
  | x :: rest => negb (List.existsb (String.eqb x) rest) && distinct rest
  end.

(** A fenced answer: the opening fence, the body and the closing fence,
    each fence with or without its line feed. *)
Definition fenced (feed_after_open feed_before_close : bool) (body : string) : string :=
  Text.open_fence ++ (if feed_after_open then LF else EmptyString) ++ body
  ++ (if feed_before_close then LF else EmptyString) ++ Text.fence.

End Notions.

(** * Properties *)

Import Js Client Spec.
Local Open Scope client_scope.

(** ** The routing policy builder *)

Section Routing.

Variables (primaryModel : ModelInfo) (backupModels : list ModelInfo).
Variable overrideOptions : option RoutingOptions.

Lemma sort_truthy_some (s : ProviderSort) : sort_truthy (Some s) = true.
Proof. destruct s; reflexivity. Qed.

Lemma nullish_override {A} (f : RoutingOptions -> option A) :
  nullish (opt_chain overrideOptions f) (opt_chain (defaultRoutingOptions primaryModel) f)
  = preferred (override_field overrideOptions f) (default_field primaryModel f).
Proof. reflexivity. Qed.

Lemma list_nonempty_omit {A} (l : option (list A)) :
  (if list_nonempty l then l else None) = omit_if_empty l.
Proof. destruct l as [[|x l]|]; reflexivity. Qed.

Lemma built_require_parameters : require_parameters (provider (_buildRoutingOptions primaryModel backupModels overrideOptions)) = true.
Proof.
  unfold _buildRoutingOptions.
  repeat match goal with |- context [if ?b then _ else _] => destruct b end; reflexivity.
Qed.

Lemma built_sort :
  sort (provider (_buildRoutingOptions primaryModel backupModels overrideOptions))
  = preferred (override_field overrideOptions providerSort)
              (default_field primaryModel providerSort).
Proof.
  unfold _buildRoutingOptions.
  rewrite !nullish_override.
  set (s := preferred (override_field overrideOptions providerSort) _).
  assert (Hs : (if sort_truthy s then s else None) = s).
  { destruct s as [v|]; [rewrite sort_truthy_some|]; reflexivity. }
  destruct (sort_truthy s);
    repeat match goal with |- context [if list_nonempty ?b then _ else _] =>
             destruct (list_nonempty b) end; simpl; congruence.
Qed.

Lemma built_order :
  order (provider (_buildRoutingOptions primaryModel backupModels overrideOptions))
  = omit_if_empty (preferred (override_field overrideOptions providerOrder)
                             (default_field primaryModel providerOrder)).
Proof.
  unfold _buildRoutingOptions.
  rewrite !nullish_override, <- list_nonempty_omit.
  repeat match goal with |- context [if ?b then _ else _] => destruct b end; reflexivity.
Qed.

Lemma built_ignore :
  ignore (provider (_buildRoutingOptions primaryModel backupModels overrideOptions))
  = omit_if_empty (preferred (override_field overrideOptions ignoredProviders)
                             (default_field primaryModel ignoredProviders)).
Proof.
  unfold _buildRoutingOptions.
  rewrite !nullish_override, <- list_nonempty_omit.
  repeat match goal with |- context [if ?b then _ else _] => destruct b end; reflexivity.
Qed.

Lemma built_models : models (_buildRoutingOptions primaryModel backupModels overrideOptions) = List.map id backupModels.
Proof.
  unfold _buildRoutingOptions; simpl.
  destruct backupModels; reflexivity.
Qed.

End Routing.

Lemma omit_if_empty_not_empty {A} (l : option (list A)) : omit_if_empty l <> Some [].
Proof. destruct l as [[|x l]|]; discriminate. Qed.

(** C3, as stated, fails: the caller overrides [providerOrder] (and
    [ignoredProviders]) with an empty list for a model whose defaults are
    not empty; the built preferences have no [order] and no [ignore] member
    at all, not the override value. *)
Lemma C3_empty_override_is_not_used :
  let primary :=
    {| id := "deepseek/deepseek-r1"; supportsStructuredOutput := true;
       defaultRoutingOptions :=
         Some {| providerSort := Some price; providerOrder := Some ["DeepInfra"];
                 ignoredProviders := Some ["InferenceNet"] |} |} in
  let override :=
    {| providerSort := None; providerOrder := Some []; ignoredProviders := Some [] |} in
  let built := provider (_buildRoutingOptions primary [] (Some override)) in
  order built = None /\ order built <> providerOrder override
  /\ ignore built = None /\ ignore built <> ignoredProviders override.
Proof. simpl. repeat split; discriminate. Qed.

(** C3, amended: [sort] is the override value when one is supplied,
    otherwise the model's default, otherwise absent; [order] and [ignore]
    are chosen the same way, and the member is omitted when the chosen
    list is absent or empty; [require_parameters] is always [true]; the
    fallback ids are the ids of the backup models in the order given. *)
Theorem C3_routing_precedence :
  forall (primaryModel : ModelInfo) (backupModels : list ModelInfo)
         (overrideOptions : option RoutingOptions),
    let built := _buildRoutingOptions primaryModel backupModels overrideOptions in
    require_parameters (provider built) = true
    /\ sort (provider built)
       = preferred (override_field overrideOptions providerSort)
                   (default_field primaryModel providerSort)
    /\ order (provider built)
       = omit_if_empty (preferred (override_field overrideOptions providerOrder)
                                  (default_field primaryModel providerOrder))
    /\ ignore (provider built)
       = omit_if_empty (preferred (override_field overrideOptions ignoredProviders)
                                  (default_field primaryModel ignoredProviders))
    /\ models built = List.map id backupModels.
Proof.
  intros; subst built.
  repeat split;
    auto using built_require_parameters, built_sort, built_order, built_ignore, built_models.
Qed.

(** C10: the built preferences never hold an empty [order] or [ignore]
    list; an override that is the empty list omits the member whatever the
    default of the model is. *)
Theorem C10_no_empty_routing_list :
  forall (primaryModel : ModelInfo) (backupModels : list ModelInfo),
    (forall overrideOptions : option RoutingOptions,
        let built := provider (_buildRoutingOptions primaryModel backupModels overrideOptions) in
        order built <> Some [] /\ ignore built <> Some []
        /\ order built
           = omit_if_empty (preferred (override_field overrideOptions providerOrder)
                                      (default_field primaryModel providerOrder))
        /\ ignore built
           = omit_if_empty (preferred (override_field overrideOptions ignoredProviders)
                                      (default_field primaryModel ignoredProviders)))
    /\ (forall (s : option ProviderSort) (l : option (list string)),
          order (provider (_buildRoutingOptions primaryModel backupModels
                             (Some {| providerSort := s; providerOrder := Some [];
                                      ignoredProviders := l |}))) = None)
    /\ (forall (s : option ProviderSort) (l : option (list string)),
          ignore (provider (_buildRoutingOptions primaryModel backupModels
                              (Some {| providerSort := s; providerOrder := l;
                                       ignoredProviders := Some [] |}))) = None).
Proof.
  intros primaryModel backupModels.
  split; [|split].
  - intros overrideOptions built; subst built.
    rewrite built_order, built_ignore.
    repeat split; auto using omit_if_empty_not_empty.
  - intros s l. rewrite built_order. reflexivity.
  - intros s l. rewrite built_ignore. reflexivity.
Qed.

(** ** The transport *)

Section Transport.

Variable rt : Runtime.
Variable requestBody : Request.t.
Variable t : Trace.

Hypothesis key_set : api_key_missing (OPENROUTER_API_KEY rt) = false.

(** The promise of [fetch] rejects. *)
Lemma transport_rejected (e : thrown) :
  fetch rt (List.length (posts t)) requestBody = Throw e ->
  makeOpenrouterCall rt requestBody t
  = (Throw (rethrown msg_unknown_transport e), caught_line e :: Posted requestBody :: t).
Proof.
  intros Hf.
  unfold makeOpenrouterCall, try_catch, bind, post. rewrite key_set, Hf.
  destruct e; reflexivity.
Qed.

(** The response is ok and its body is JSON on which the test of line 257
    does not throw. *)
Lemma transport_ok (response : Response) (data : value) (missing : bool) :
  fetch rt (List.length (posts t)) requestBody = Return response ->
  ok response = true ->
  json response = Return data ->
  no_content data = Return missing ->
  makeOpenrouterCall rt requestBody t
  = if missing
    then (Throw (new_Error msg_no_content),
          caught_line (new_Error msg_no_content)
          :: Console LevelWarn
               [ShowText "OpenRouter Warning: Response OK but no content generated.";
                ShowValue data]
          :: Posted requestBody :: t)
    else match first_content data with
         | Return c => (Return c, Posted requestBody :: t)
         | Throw e => (Throw (rethrown msg_unknown_transport e),
                       caught_line e :: Posted requestBody :: t)
         end.
Proof.
  intros Hf Hok Hjson Hmiss.
  unfold makeOpenrouterCall, try_catch, bind, post, eval. rewrite key_set, Hf, Hok, Hjson, Hmiss.
  destruct missing; [reflexivity|].
  destruct (first_content data) as [c|e]; [reflexivity|destruct e; reflexivity].
Qed.

(** The response is ok and reading its body, or the test of line 257,
    throws. *)
Lemma transport_ok_throws (response : Response) (e : thrown) :
  fetch rt (List.length (posts t)) requestBody = Return response ->
  ok response = true ->
  match json response with Return data => no_content data | Throw e' => Throw e' end = Throw e ->
  makeOpenrouterCall rt requestBody t
  = (Throw (rethrown msg_unknown_transport e), caught_line e :: Posted requestBody :: t).
Proof.
  intros Hf Hok Hthrow.
  unfold makeOpenrouterCall, try_catch, bind, post, eval. rewrite key_set, Hf, Hok.
  destruct (json response) as [data|e'].
  - rewrite Hthrow. destruct e; reflexivity.
  - injection Hthrow as ->. destruct e; reflexivity.
Qed.

End Transport.

(** A read on a truthy receiver does not throw. *)
Lemma get_truthy (v : value) (key : string) :
  truthy v = true -> get v key = Return (member v key).
Proof. unfold member. destruct v; simpl; intros H; try discriminate; reflexivity. Qed.

(** What [read_error_body] gives: it never throws, and logs one line. *)
Lemma read_error_body_run (response : Response) (t : Trace) :
  exists line : string,
    read_error_body response t
    = (Return (reported_code response, reported_message response, logged_details response),
       Console LevelError [ShowText line; ShowValue (logged_details response)] :: t).
Proof.
  unfold read_error_body, try_catch, bind, eval, console, emit, ret,
    logged_details, reported_code, reported_message, error_member.
  destruct (json response) as [body|e]; simpl.
  - destruct (truthy body) eqn:Hb; simpl.
    + rewrite (get_truthy _ _ Hb).
      destruct (truthy (member body "error")) eqn:He; simpl.
      * rewrite !(get_truthy _ _ He). eexists; reflexivity.
      * eexists; reflexivity.
    + rewrite Hb. eexists; reflexivity.
  - destruct (text response); eexists; reflexivity.
Qed.

(** C4: without the API key the transport throws the configuration error
    at once; the trace is unchanged, so nothing was posted. *)
Theorem C4_missing_key_fails_before_network :
  forall (rt : Runtime) (requestBody : Request.t) (t : Trace),
    OPENROUTER_API_KEY rt = None ->
    makeOpenrouterCall rt requestBody t = (Throw (new_Error msg_no_api_key), t)
    /\ posts (snd (makeOpenrouterCall rt requestBody t)) = posts t.
Proof.
  intros rt requestBody t Hkey.
  unfold makeOpenrouterCall. rewrite Hkey. simpl. split; reflexivity.
Qed.

Lemma C4_missing_key_witness :
  makeOpenrouterCall (World.scripted None [Return (World.replies World.bare_answer)])
    (json_mode_request None "hello" Models.GPT4o [] None) []
  = (Throw (new_Error msg_no_api_key), []).
Proof.
  apply (C4_missing_key_fails_before_network
           (World.scripted None [Return (World.replies World.bare_answer)])
           (json_mode_request None "hello" Models.GPT4o [] None) []).
  reflexivity.
Defined.

(** The part of C5 that holds: a body with [choices: []] gives the error
    of an empty completion. *)
Lemma empty_choices_no_content (others : list (string * value)) :
  no_content (Obj (("choices", Arr []) :: others)) = Return true.
Proof. reflexivity. Qed.

(** The test of line 257 does not throw when neither the body nor the
    first choice is [null] or [undefined]: the reads of [choices], of
    [length] and of [message] then have a receiver, and the read of
    [content] is guarded by the optional chaining. *)
Lemma no_content_guarded (data choices first : value) :
  get data "choices" = Return choices ->
  get0 choices = Return first ->
  first <> Null -> first <> Undefined ->
  exists missing : bool, no_content data = Return missing.
Proof.
  intros Hchoices Hfirst Hnull Hundef.
  unfold no_content. rewrite Hchoices.
  destruct (truthy choices) eqn:Ht; simpl; [|eexists; reflexivity].
  rewrite (get_truthy _ _ Ht).
  destruct (strict_eq_zero (member choices "length")); [eexists; reflexivity|].
  rewrite Hfirst.
  destruct first as [| |b|n|s|items|members]; try congruence; simpl;
    try (eexists; reflexivity).
  destruct (lookup "message" members); simpl; eexists; reflexivity.
Qed.

(** C5: the code at the failing inputs. A response that is ok with the
    body [{"choices":[null]}], or with the body [null], lacks a content,
    and the transport throws the TypeError of the property read instead of
    the error of an empty completion; with [choices: []] it throws the
    latter. *)
Theorem C5_null_choice_throws_TypeError :
  forall requestBody : Request.t,
    let run (data : value) :=
      fst (makeOpenrouterCall (World.scripted World.key [Return (World.ok_response data)])
             requestBody []) in
    run (Obj [("choices", Arr [Null])])
    = Throw (ErrorObject ClsTypeError "Cannot read properties of null (reading 'message')")
    /\ run Null
       = Throw (ErrorObject ClsTypeError "Cannot read properties of null (reading 'choices')")
    /\ run (Obj [("choices", Arr [])]) = Throw (new_Error msg_no_content)
    /\ run (Obj [("choices", Arr [Null])]) <> Throw (new_Error msg_no_content).
Proof.
  intros requestBody run. subst run. repeat split. discriminate.
Qed.

(** C6, as stated, fails: two responses with status 429 whose error bodies
    differ only in [metadata] make the transport throw the same error, so
    the failure does not carry the metadata. The same holds for two bodies
    that are JSON of another shape; a body that is not JSON gives the
    error of the status and the status text alone. *)
Lemma C6_failure_does_not_carry_metadata :
    let run (response : Response) :=
      fst (makeOpenrouterCall (World.scripted World.key [Return response])
             World.a_request []) in
    let failure := Throw (new_Error "OpenRouter API request failed (429): rate limited") in
    let plain := Throw (new_Error "OpenRouter API request failed (502): Bad Gateway") in
    run (World.error_response 429 "Too Many Requests"
           (World.rate_limited (Some (Obj [("provider_name", Str "DeepInfra")])))) = failure
    /\ run (World.error_response 429 "Too Many Requests"
              (World.rate_limited (Some (Obj [("provider_name", Str "Together")])))) = failure
    /\ run (World.error_response 502 "Bad Gateway" (Obj [("detail", Str "upstream")])) = plain
    /\ run (World.error_response 502 "Bad Gateway" (Obj [("detail", Str "overloaded")])) = plain
    /\ run (World.raw_error_response 502 "Bad Gateway") = plain.
Proof.
  intros run failure plain. subst run failure plain. repeat split.
Qed.

(** C6, amended: for a response that is not ok, whose code and message
    are safe values, the transport throws an [Error] whose message is
    [OpenRouter API request failed (code): message]. The code and the
    message are those of the [error] member of the body when the body is
    JSON with a truthy [error] member, each replaced by the HTTP status or
    status text when it is missing or falsy; they are the HTTP status and
    status text otherwise. When the code or the message is an object that
    cannot be converted to a string, the template literal throws its
    TypeError instead. For a body that is JSON, the metadata or the decoded
    body of another shape are written to the console only. One request was
    posted. *)
Theorem C6_remote_failure :
  forall (rt : Runtime) (requestBody : Request.t) (t : Trace) (response : Response),
    api_key_missing (OPENROUTER_API_KEY rt) = false ->
    fetch rt (List.length (posts t)) requestBody = Return response ->
    ok response = false ->
    safe (reported_code response) = true ->
    safe (reported_message response) = true ->
    let failure :=
      if stringifies (reported_code response) && stringifies (reported_message response)
      then new_Error (request_failed_message (reported_code response)
                        (reported_message response))
      else ErrorObject ClsTypeError "Cannot convert object to primitive value" in
    exists (line : string) (details : value),
      makeOpenrouterCall rt requestBody t
      = (Throw failure,
         caught_line failure
         :: Console LevelError [ShowText line; ShowValue details]
         :: Posted requestBody :: t)
      /\ (forall body : value, json response = Return body -> details = logged_details response).
Proof.
  intros rt requestBody t response Hkey Hf Hok _ _ failure.
  destruct (read_error_body_run response (Posted requestBody :: t)) as [line Hrun].
  exists line, (logged_details response). split; [|reflexivity].
  unfold makeOpenrouterCall, try_catch, bind, post. rewrite Hkey, Hf. cbv iota beta.
  rewrite Hok, Hrun. subst failure. unfold eval, finalErrorMessage.
  destruct (stringifies (reported_code response) && stringifies (reported_message response));
    reflexivity.
Qed.

Lemma C6_remote_failure_witness :
    fst (makeOpenrouterCall
           (World.scripted World.key
              [Return (World.error_response 429 "Too Many Requests" (World.rate_limited None))])
           World.a_request [])
    = Throw (new_Error "OpenRouter API request failed (429): rate limited").
Proof.
  destruct (C6_remote_failure
              (World.scripted World.key
                 [Return (World.error_response 429 "Too Many Requests"
                            (World.rate_limited None))])
              World.a_request []
              (World.error_response 429 "Too Many Requests" (World.rate_limited None))
              eq_refl eq_refl eq_refl eq_refl eq_refl) as [line [details [Hrun _]]].
  rewrite Hrun. reflexivity.
Defined.

(** A code that is an object with an own [toString] member: the template
    literal of line 291 throws, and the [catch] block throws its TypeError
    again. *)
Example transport_unconvertible_code :
  fst (makeOpenrouterCall
         (World.scripted World.key
            [Return (World.error_response 400 "Bad Request"
                       (Obj [("error", Obj [("code", Obj [("toString", Num 1)]);
                                            ("message", Str "bad")])]))])
         World.a_request [])
  = Throw (ErrorObject ClsTypeError "Cannot convert object to primitive value").
Proof. reflexivity. Qed.

(** C7, as stated, fails: the connection is reset and [fetch] throws a
    value that is not an instance of [Error]; the transport throws a new
    error with a fixed message, and the original message is lost. An
    instance of [Error] comes out as it went in, without a wrapper. *)
Lemma C7_non_error_value_loses_message :
    let run (e : thrown) :=
      fst (makeOpenrouterCall (World.scripted World.key [Throw e]) World.a_request []) in
    run (NonError (Str "ECONNRESET")) = Throw (new_Error msg_unknown_transport)
    /\ run (NonError (Str "ETIMEDOUT")) = Throw (new_Error msg_unknown_transport)
    /\ msg_unknown_transport <> "ECONNRESET"
    /\ run (ErrorObject ClsTypeError "fetch failed")
       = Throw (ErrorObject ClsTypeError "fetch failed").
Proof.
  intros run. subst run. repeat split. discriminate.
Qed.

(** C7, amended: an exception of the network call that is an instance of
    [Error] is thrown again as it is, with its class and its message; it is
    not wrapped, and no class of its own marks it. A thrown value that is
    not an instance of [Error] is replaced by a new [Error] with the fixed
    message [msg_unknown_transport]. One request was posted, and the caught
    value is written to the console. *)
Theorem C7_network_exception_rethrown :
  forall (rt : Runtime) (requestBody : Request.t) (t : Trace) (e : thrown),
    api_key_missing (OPENROUTER_API_KEY rt) = false ->
    fetch rt (List.length (posts t)) requestBody = Throw e ->
    makeOpenrouterCall rt requestBody t
    = (Throw (match e with
              | ErrorObject cls message => ErrorObject cls message
              | NonError _ => new_Error msg_unknown_transport
              end),
       caught_line e :: Posted requestBody :: t).
Proof.
  intros rt requestBody t e Hkey Hf.
  rewrite (@transport_rejected rt requestBody t Hkey e Hf). destruct e; reflexivity.
Qed.

Lemma C7_network_exception_witness :
    makeOpenrouterCall (World.scripted World.key []) World.a_request []
    = (Throw (ErrorObject ClsTypeError "fetch failed"),
       [caught_line (ErrorObject ClsTypeError "fetch failed"); Posted World.a_request]).
Proof.
  apply (C7_network_exception_rethrown (World.scripted World.key []) World.a_request []
           (ErrorObject ClsTypeError "fetch failed")); reflexivity.
Defined.

(** ** The cleaning step of the JSON mode *)

Section Cleaning.
Import Text.

Lemma trimStart_length (s : string) : (String.length (trimStart s) <= String.length s)%nat.
Proof.
  induction s as [|c r IH]; simpl; [lia|].
  destruct (is_space c); simpl; lia.
Qed.

Lemma trimEnd_length (s : string) : (String.length (trimEnd s) <= String.length s)%nat.
Proof.
  induction s as [|c r IH]; simpl; [lia|].
  destruct (trimEnd r); [destruct (is_space c)|]; simpl in *; lia.
Qed.

Lemma trim_length (s : string) : (String.length (trim s) <= String.length s)%nat.
Proof.
  unfold trim. pose proof (trimEnd_length (trimStart s)). pose proof (trimStart_length s). lia.
Qed.

Lemma trimEnd_idempotent (s : string) : trimEnd (trimEnd s) = trimEnd s.
Proof.
  induction s as [|c r IH]; simpl; [reflexivity|].
  destruct (trimEnd r) as [|k1 k2] eqn:Hr.
  - destruct (is_space c) eqn:Hc; simpl; [reflexivity|]. rewrite Hc. reflexivity.
  - change (trimEnd (String c (String k1 k2))) with
      (match trimEnd (String k1 k2) with
       | EmptyString => if is_space c then EmptyString else String c EmptyString
       | kept => String c kept
       end).
    rewrite IH. reflexivity.
Qed.

Lemma trimStart_head (s : string) : head_kept (trimStart s).
Proof.
  induction s as [|c r IH]; simpl; [exact I|].
  destruct (is_space c) eqn:Hc; [exact IH|exact Hc].
Qed.

Lemma trimEnd_head (s : string) : head_kept s -> head_kept (trimEnd s).
Proof.
  destruct s as [|c r]; simpl; [trivial|].
  intros Hc. destruct (trimEnd r); [rewrite Hc|]; exact Hc.
Qed.

Lemma trimStart_fixed (s : string) : head_kept s -> trimStart s = s.
Proof. destruct s as [|c r]; simpl; [reflexivity|]. intros ->. reflexivity. Qed.

Lemma trim_idempotent (s : string) : trim (trim s) = trim s.
Proof.
  unfold trim.
  rewrite (trimStart_fixed (trimEnd (trimStart s))).
  - apply trimEnd_idempotent.
  - apply trimEnd_head, trimStart_head.
Qed.

Lemma after_prefix_length (p s r : string) :
  after_prefix p s = Some r -> String.length s = (String.length p + String.length r)%nat.
Proof.
  revert s; induction p as [|a p IH]; intros s H; simpl in *.
  - injection H as ->. reflexivity.
  - destruct s as [|b s]; [discriminate|].
    destruct (Ascii.eqb a b); [|discriminate].
    simpl. rewrite (IH _ H). reflexivity.
Qed.

Lemma strip_open_fence_length (s : string) :
  (String.length (strip_open_fence s) <= String.length s)%nat
  /\ (starts_with_fence s = true ->
      (String.length (strip_open_fence s) + 7 <= String.length s)%nat)
  /\ (starts_with_fence s = false -> strip_open_fence s = s).
Proof.
  unfold strip_open_fence, starts_with_fence.
  destruct (after_prefix open_fence s) as [r|] eqn:Hp.
  - apply after_prefix_length in Hp. simpl in Hp.
    destruct (after_prefix Js.LF r) as [r'|] eqn:Hl.
    + apply after_prefix_length in Hl. simpl in Hl.
      repeat split; try lia; discriminate.
    + repeat split; try lia; discriminate.
  - repeat split; try lia; discriminate.
Qed.

Lemma strip_close_fence_length (s : string) :
  (String.length (strip_close_fence s) <= String.length s)%nat
  /\ (ends_with_fence s = true ->
      (String.length (strip_close_fence s) + 3 <= String.length s)%nat)
  /\ (ends_with_fence s = false -> strip_close_fence s = s).
Proof.
  induction s as [|c r [IH1 [IH2 IH3]]].
  - simpl. repeat split; try lia; discriminate.
  - change (strip_close_fence (String c r)) with
      (if String.eqb (String c r) (Js.LF ++ fence) || String.eqb (String c r) fence
       then EmptyString else String c (strip_close_fence r)).
    change (ends_with_fence (String c r)) with
      (String.eqb (String c r) fence || ends_with_fence r).
    destruct (String.eqb (String c r) (Js.LF ++ fence)) eqn:H1.
    + apply String.eqb_eq in H1. injection H1 as -> ->.
      repeat split; simpl; intros; try lia; discriminate.
    + destruct (String.eqb (String c r) fence) eqn:H2; simpl orb.
      * apply String.eqb_eq in H2. injection H2 as -> ->.
        repeat split; simpl; intros; try lia; discriminate.
      * simpl String.length. repeat split.
        -- lia.
        -- intros H. specialize (IH2 H). lia.
        -- intros H. rewrite (IH3 H). reflexivity.
Qed.

Lemma clean_trimmed (s : string) : trim (clean s) = clean s.
Proof. unfold clean. apply trim_idempotent. Qed.

Lemma clean_length (s : string) :
  (String.length (clean s) <= String.length s)%nat
  /\ (still_fenced s = true -> (String.length (clean s) < String.length s)%nat).
Proof.
  unfold clean, still_fenced.
  pose proof (trim_length (strip_close_fence (strip_open_fence s))) as Ht.
  destruct (strip_close_fence_length (strip_open_fence s)) as [Hc1 [Hc2 Hc3]].
  destruct (strip_open_fence_length s) as [Ho1 [Ho2 Ho3]].
  split; [lia|].
  destruct (starts_with_fence s) eqn:Hs; simpl.
  - intros _. specialize (Ho2 eq_refl). lia.
  - intros He. rewrite (Ho3 eq_refl) in *. specialize (Hc2 He). lia.
Qed.

(** A second cleaning changes a cleaned text exactly when fences are
    left. *)
Lemma clean_again (s : string) :
  clean (clean s) = clean s <-> still_fenced (clean s) = false.
Proof.
  split.
  - intros Heq. destruct (still_fenced (clean s)) eqn:Hf; [|reflexivity].
    destruct (clean_length (clean s)) as [_ Hlt]. specialize (Hlt Hf).
    rewrite Heq in Hlt. lia.
  - unfold still_fenced. intros Hf. apply orb_false_iff in Hf as [Hs He].
    unfold clean at 1.
    destruct (strip_open_fence_length (clean s)) as [_ [_ Ho]]. rewrite (Ho Hs).
    destruct (strip_close_fence_length (clean s)) as [_ [_ Hc]]. rewrite (Hc He).
    apply clean_trimmed.
Qed.

End Cleaning.

(** C9, as stated, fails: the answer is fenced and a line feed follows the
    closing fence. The closing fence is then not at the end of the text, so
    the first cleaning strips the opening fence only and trims the line
    feed; the second cleaning strips the closing fence. The cleaning
    applied twice differs from the cleaning applied once, and only the
    text cleaned twice is JSON. *)
Lemma C9_cleaning_is_not_idempotent :
  Text.clean World.fenced_answer_newline = World.bare_answer ++ LF ++ Text.fence
  /\ Text.clean (Text.clean World.fenced_answer_newline) = World.bare_answer
  /\ Text.clean (Text.clean World.fenced_answer_newline)
     <> Text.clean World.fenced_answer_newline
  /\ Reader.parse (Text.clean World.fenced_answer_newline) = Throw Reader.syntax_error
  /\ Reader.parse (Text.clean (Text.clean World.fenced_answer_newline))
     = Return (Obj [("a", Num 1)]).
Proof. repeat split. discriminate. Qed.

(** C9, amended: the fenced answer of the specification is cleaned to the
    answer without fences, which the cleaning leaves as it is, so that both
    are parsed to the same value, [{a: 1}] for a parser that reads the bare
    answer so; the JSON mode returns that value for both. The cleaning
    applied twice gives the same text as applied once exactly when the text
    cleaned once neither starts with the opening fence nor ends with the
    closing fence; a cleaned text has no space at either end. *)
Theorem C9_fence_cleaning :
  Text.clean World.fenced_answer = World.bare_answer
  /\ Text.clean World.bare_answer = World.bare_answer
  /\ (forall rt : Runtime,
        JSON_parse rt (Text.clean World.fenced_answer)
        = JSON_parse rt (Text.clean World.bare_answer))
  /\ (forall answer : string,
        answer = World.fenced_answer \/ answer = World.bare_answer ->
        fst (_callInJSONMode (World.scripted World.key [Return (World.replies answer)])
               None "Return a JSON object." Models.QwenQwq32B None None [])
        = Return (Obj [("a", Num 1)]))
  /\ (forall s : string,
        Text.clean (Text.clean s) = Text.clean s <-> still_fenced (Text.clean s) = false)
  /\ (forall s : string, Text.trim (Text.clean s) = Text.clean s).
Proof.
  split; [reflexivity|]. split; [reflexivity|]. split; [reflexivity|].
  split; [|split].
  - intros answer [-> | ->]; reflexivity.
  - exact clean_again.
  - exact clean_trimmed.
Qed.

Lemma C9_fence_cleaning_witness :
  fst (_callInJSONMode (World.scripted World.key [Return (World.replies World.fenced_answer)])
         None "Return a JSON object." Models.QwenQwq32B None None [])
  = Return (Obj [("a", Num 1)])
  /\ Text.clean (Text.clean World.fenced_answer) = Text.clean World.fenced_answer.
Proof.
  destruct C9_fence_cleaning as [_ [_ [_ [Hrun [Hidem _]]]]].
  split.
  - apply Hrun. left. reflexivity.
  - apply Hidem. reflexivity.
Defined.

(** ** Traces of the computations *)

Section Traces.

Variable P : Event -> Prop.

Lemma reaches_bind {A B} (base t : Trace) (m : M A) (k : A -> M B) :
  reaches P base (m t) -> (forall a, only P (k a)) -> reaches P base (bind m k t).
Proof.
  unfold reaches, bind. intros [ev [Hev Hall]] Hk.
  destruct (m t) as [[a|e] t']; simpl in *.
  - destruct (Hk a t') as [ev' [Hev' Hall']].
    exists (ev' ++ ev)%list. rewrite Hev', Hev, List.app_assoc.
    split; [reflexivity|]. apply List.Forall_app; auto.
  - exists ev. auto.
Qed.

Lemma reaches_try {A} (base t : Trace) (m : M A) (h : thrown -> M A) :
  reaches P base (m t) -> (forall e, only P (h e)) -> reaches P base (try_catch m h t).
Proof.
  unfold reaches, try_catch. intros [ev [Hev Hall]] Hh.
  destruct (m t) as [[a|e] t']; simpl in *.
  - exists ev. auto.
  - destruct (Hh e t') as [ev' [Hev' Hall']].
    exists (ev' ++ ev)%list. rewrite Hev', Hev, List.app_assoc.
    split; [reflexivity|]. apply List.Forall_app; auto.
Qed.

Lemma reaches_refl {A} (t : Trace) (c : completion A) : reaches P t (c, t).
Proof. exists []. split; [reflexivity|constructor]. Qed.

Lemma reaches_step {A} (base : Trace) (e : Event) (p : completion A * Trace) :
  P e -> reaches P (e :: base) p -> reaches P base p.
Proof.
  intros He [ev [Hev Hall]]. exists (ev ++ [e])%list.
  rewrite <- List.app_assoc. split; [exact Hev|].
  apply List.Forall_app; auto.
Qed.

Lemma only_ret {A} (a : A) : only P (ret a).
Proof. intros t. apply reaches_refl. Qed.

Lemma only_throw {A} (e : thrown) : only P (throw (A := A) e).
Proof. intros t. apply reaches_refl. Qed.

Lemma only_eval {A} (c : completion A) : only P (eval c).
Proof. intros t. apply reaches_refl. Qed.

Lemma only_bind {A B} (m : M A) (k : A -> M B) :
  only P m -> (forall a, only P (k a)) -> only P (bind m k).
Proof. intros Hm Hk t. apply reaches_bind; auto. Qed.

Lemma only_try {A} (m : M A) (h : thrown -> M A) :
  only P m -> (forall e, only P (h e)) -> only P (try_catch m h).
Proof. intros Hm Hh t. apply reaches_try; auto. Qed.

Lemma only_console (level : Level) (args : list Shown) :
  P (Console level args) -> only P (console level args).
Proof.
  intros HP t. exists [Console level args]. split; [reflexivity|]. repeat constructor. exact HP.
Qed.

Lemma only_rethrow_or (e : thrown) (unknown : string) : only P (rethrow_or e unknown).
Proof. unfold rethrow_or. destruct (instanceof_Error e); apply only_throw. Qed.

Hypothesis P_lines : console_lines P.

Lemma P_warn (args : list Shown) : P (Console LevelWarn args).
Proof. apply P_lines. Qed.

Lemma P_error (args : list Shown) : P (Console LevelError args).
Proof. apply P_lines. Qed.

Lemma P_log (line : string) :
  is_structured_announcement (Console LevelLog [ShowText line]) = false ->
  P (Console LevelLog [ShowText line]).
Proof. apply P_lines. Qed.

Ltac only_step :=
  first
    [ apply only_ret | apply only_throw | apply only_eval | apply only_rethrow_or
    | apply only_console; first [apply P_warn | apply P_error | apply P_log; reflexivity]
    | apply only_bind; [|intros]
    | apply only_try; [|intros]
    | match goal with
      | |- only _ (if ?b then _ else _) => destruct b
      | |- only _ (match ?x with _ => _ end) => destruct x
      end ].

Variable rt : Runtime.

Lemma read_error_body_only (response : Response) : only P (read_error_body response).
Proof. unfold read_error_body. repeat only_step. Qed.

Lemma post_reaches (requestBody : Request.t) (t : Trace) :
  reaches P (Posted requestBody :: t) (post rt requestBody t).
Proof. apply reaches_refl. Qed.

(** After its request the transport produces console lines only. *)
Lemma transport_reaches (requestBody : Request.t) (t : Trace) :
  api_key_missing (OPENROUTER_API_KEY rt) = false ->
  reaches P (Posted requestBody :: t) (makeOpenrouterCall rt requestBody t).
Proof.
  intros Hkey. unfold makeOpenrouterCall. rewrite Hkey.
  apply reaches_try; [apply reaches_bind; [apply post_reaches|]|]; intros;
    repeat only_step; apply read_error_body_only.
Qed.

Lemma transport_only (requestBody : Request.t) :
  P (Posted requestBody) -> only P (makeOpenrouterCall rt requestBody).
Proof.
  intros HP t. destruct (api_key_missing (OPENROUTER_API_KEY rt)) eqn:Hkey.
  - unfold makeOpenrouterCall. rewrite Hkey. apply reaches_refl.
  - apply reaches_step with (e := Posted requestBody); [exact HP|].
    apply transport_reaches. exact Hkey.
Qed.

Lemma json_mode_reaches (sp : option string) (up : string) (pm : ModelInfo)
    (bm : option (list ModelInfo)) (ro : option RoutingOptions) (t : Trace) :
  api_key_missing (OPENROUTER_API_KEY rt) = false ->
  reaches P (Posted (json_mode_request sp up pm (default_to [] bm) ro) :: t)
    (_callInJSONMode rt sp up pm bm ro t).
Proof.
  intros Hkey. unfold _callInJSONMode.
  apply reaches_try; [apply reaches_bind; [apply transport_reaches; exact Hkey|]|]; intros;
    repeat only_step.
Qed.

Lemma json_mode_only (sp : option string) (up : string) (pm : ModelInfo)
    (bm : option (list ModelInfo)) (ro : option RoutingOptions) :
  P (Posted (json_mode_request sp up pm (default_to [] bm) ro)) ->
  only P (_callInJSONMode rt sp up pm bm ro).
Proof.
  intros HP. unfold _callInJSONMode.
  apply only_try; [apply only_bind; [apply transport_only; exact HP|]|]; intros;
    repeat only_step.
Qed.

Lemma structured_mode_reaches (sp up : string) (pm : ModelInfo)
    (bm : option (list ModelInfo)) (sch : ZodType) (name : option string)
    (ro : option RoutingOptions) (js : value) (t : Trace) :
  api_key_missing (OPENROUTER_API_KEY rt) = false ->
  zodToJsonSchema rt sch None = Return js ->
  reaches P
    (Posted (structured_request sp up pm (default_to [] bm) (default_to "response" name) js ro)
     :: t)
    (_callInStructuredOutputMode rt sp up pm bm sch name ro t).
Proof.
  intros Hkey Hjs. unfold _callInStructuredOutputMode.
  unfold bind at 1, eval at 1. rewrite Hjs.
  apply reaches_try; [apply reaches_bind; [apply transport_reaches; exact Hkey|]|]; intros;
    repeat only_step.
Qed.

Lemma structured_mode_only (sp up : string) (pm : ModelInfo)
    (bm : option (list ModelInfo)) (sch : ZodType) (name : option string)
    (ro : option RoutingOptions) :
  (forall body, P (Posted body)) ->
  only P (_callInStructuredOutputMode rt sp up pm bm sch name ro).
Proof.
  intros HP. unfold _callInStructuredOutputMode.
  apply only_bind; [apply only_eval|]. intros js.
  apply only_try; [apply only_bind; [apply transport_only; apply HP|]|]; intros;
    repeat only_step.
Qed.

Lemma log_reason_only (o : CallOptions) (primary : ModelInfo) : only P (log_reason o primary).
Proof. unfold log_reason. repeat only_step. Qed.

Lemma prompt_with_hint_only (o : CallOptions) : only P (prompt_with_hint rt o).
Proof. unfold prompt_with_hint. repeat only_step. Qed.

Lemma json_stage_only (o : CallOptions) (primary : ModelInfo) (backups : list ModelInfo) :
  (forall body, Request.response_format body = json_object -> P (Posted body)) ->
  only P (json_stage rt o primary backups).
Proof.
  intros HP. unfold json_stage.
  apply only_bind; [apply log_reason_only|]. intros _.
  apply only_bind; [apply prompt_with_hint_only|]. intros prompt.
  apply json_mode_only. apply HP. reflexivity.
Qed.

End Traces.

Lemma console_lines_any : console_lines (fun _ => True).
Proof. repeat split. Qed.

Lemma console_lines_not_a_post : console_lines not_a_post.
Proof. repeat split. Qed.

Lemma console_lines_unstructured : console_lines unstructured.
Proof.
  split; [|split].
  - intros args. split; reflexivity.
  - intros args. split; reflexivity.
  - intros line Hline. split; [exact Hline|reflexivity].
Qed.

(** ** The call strategy *)

Lemma posts_app (events t : Trace) :
  posts (events ++ t)%list = (posts events ++ posts t)%list.
Proof.
  induction events as [|e events IH]; [reflexivity|].
  destruct e; simpl; rewrite IH; reflexivity.
Qed.

Lemma posts_of_consoles (events : list Event) : List.Forall not_a_post events -> posts events = [].
Proof.
  induction 1 as [|e events He _ IH]; [reflexivity|].
  destruct e; [discriminate He|exact IH].
Qed.

Lemma attempts_none (events : list Event) :
  List.Forall unstructured events -> attempts_structured events = false.
Proof.
  induction 1 as [|e events [Ha Hr] _ IH]; [reflexivity|].
  unfold attempts_structured in *. simpl. rewrite Ha, Hr, IH. reflexivity.
Qed.

Lemma announcement_recognised (m : ModelInfo) :
  is_structured_announcement (Console LevelLog [ShowText (using_structured m)]) = true.
Proof. reflexivity. Qed.

Lemma attempts_after_announcement (m : ModelInfo) (events : list Event) :
  attempts_structured (events ++ [Console LevelLog [ShowText (using_structured m)]])%list
  = true.
Proof.
  unfold attempts_structured. rewrite List.existsb_app.
  apply orb_true_iff. right. reflexivity.
Qed.

Lemma structured_first_schema (o : CallOptions) :
  structured_first o = true -> exists sch, schema o = Some sch.
Proof.
  unfold structured_first. destruct (schema o) as [sch|].
  - intros _. exists sch. reflexivity.
  - rewrite andb_false_r. discriminate.
Qed.

Section Strategy.

Variable rt : Runtime.
Variable o : CallOptions.


(** The reason is logged, without a request and without a throw. *)
Lemma log_reason_run (primary : ModelInfo) (t : Trace) :
  exists t', log_reason o primary t = (Return tt, t') /\ posts t' = posts t.
Proof.
  unfold log_reason.
  destruct (default_to false (forceJsonMode o));
    [|destruct (negb (supportsStructuredOutput primary)); [|destruct (schema o)]];
    eexists; split; reflexivity.
Qed.

(** The prompt is made, without a request and without a throw. *)
Lemma prompt_with_hint_run (t : Trace) :
  exists prompt t', prompt_with_hint rt o t = (Return prompt, t') /\ posts t' = posts t.
Proof.
  unfold prompt_with_hint.
  destruct (schema o) as [sch|]; [|do 2 eexists; split; reflexivity].
  unfold try_catch, bind, eval.
  destruct (zodToJsonSchema rt sch (Some "strict")); do 2 eexists; split; reflexivity.
Qed.

(** The JSON stage is the call in JSON mode, and its outcome is the
    outcome of the stage. *)
Lemma json_stage_run (primary : ModelInfo) (rest : list ModelInfo) (t : Trace) :
  exists prompt t',
    json_stage rt o primary rest t
    = _callInJSONMode rt (systemPrompt o) prompt primary (Some rest) (routingOptions o) t'
    /\ posts t' = posts t.
Proof.
  destruct (log_reason_run primary t) as [t1 [H1 Hp1]].
  destruct (prompt_with_hint_run t1) as [prompt [t2 [H2 Hp2]]].
  exists prompt, t2. split; [|congruence].
  unfold json_stage. unfold bind at 1. rewrite H1. unfold bind at 1. rewrite H2. reflexivity.
Qed.

(** The prompt of the JSON stage is the user prompt, followed by the hint
    when there is a schema and its conversion does not throw. *)
Lemma prompt_with_hint_value (t : Trace) :
  exists t',
    prompt_with_hint rt o t = (Return (Notions.expected_prompt rt o), t')
    /\ posts t' = posts t.
Proof.
  unfold prompt_with_hint, Notions.expected_prompt, Notions.hint.
  destruct (schema o) as [sch|]; [|eexists; split; reflexivity].
  unfold try_catch, bind, eval.
  destruct (zodToJsonSchema rt sch (Some "strict")); eexists; split; reflexivity.
Qed.

(** The JSON stage is the call in JSON mode with that prompt. *)
Lemma json_stage_call (primary : ModelInfo) (rest : list ModelInfo) (t : Trace) :
  exists t',
    json_stage rt o primary rest t
    = _callInJSONMode rt (systemPrompt o) (Notions.expected_prompt rt o) primary (Some rest)
        (routingOptions o) t'
    /\ posts t' = posts t.
Proof.
  destruct (log_reason_run primary t) as [t1 [H1 Hp1]].
  destruct (prompt_with_hint_value t1) as [t2 [H2 Hp2]].
  exists t2. split; [|congruence].
  unfold json_stage. unfold bind at 1. rewrite H1. unfold bind at 1. rewrite H2. reflexivity.
Qed.

(** Without the test of line 496 the call is the JSON stage with the
    models as given. *)
Lemma makeLLMCall_direct (t : Trace) :
  structured_first o = false ->
  makeLLMCall rt o t = json_stage rt o (primaryModel o) (default_to [] (backupModels o)) t.
Proof.
  intros Hno. unfold makeLLMCall, structured_block. rewrite Hno. reflexivity.
Qed.

(** With the test of line 496 the block of the structured mode announces the
    mode first. *)
Lemma structured_block_announces (P : Event -> Prop) (t : Trace) :
  console_lines P ->
  (forall body, P (Posted body)) ->
  structured_first o = true ->
  reaches P (Console LevelLog [ShowText (using_structured (primaryModel o))] :: t)
    (makeLLMCall rt o t).
Proof.
  intros Hlines Hp Hyes.
  destruct (structured_first_schema o Hyes) as [sch Hsch].
  unfold makeLLMCall. apply reaches_bind.
  - unfold structured_block. rewrite Hyes, Hsch.
    unfold bind at 1, console, emit.
    apply reaches_try.
    + apply reaches_bind; [apply structured_mode_only; assumption|].
      intros v. apply only_ret.
    + intros e. apply only_bind; [apply only_console; apply Hlines|]. intros _.
      destruct (default_to [] (backupModels o)).
      * apply only_ret.
      * apply only_bind; [apply only_console; apply Hlines; reflexivity|].
        intros _. apply only_ret.
  - intros [v|primary rest]; [apply only_ret|].
    apply json_stage_only; auto.
Qed.

(** With the key, and a schema that is converted, the structured request
    for the primary model follows the announcement. *)
Lemma structured_block_posts (t : Trace) (sch : ZodType) (js : value) :
  structured_first o = true ->
  schema o = Some sch ->
  api_key_missing (OPENROUTER_API_KEY rt) = false ->
  zodToJsonSchema rt sch None = Return js ->
  reaches (fun _ => True)
    (Posted (structured_request (string_or (systemPrompt o) structured_system_prompt)
               (userPrompt o) (primaryModel o) (default_to [] (backupModels o))
               (default_to "response" (schemaName o))
               js (routingOptions o))
     :: Console LevelLog [ShowText (using_structured (primaryModel o))] :: t)
    (makeLLMCall rt o t).
Proof.
  intros Hyes Hsch Hkey Hjs.
  unfold makeLLMCall. apply reaches_bind.
  - unfold structured_block. rewrite Hyes, Hsch.
    unfold bind at 1, console, emit.
    apply reaches_try.
    + apply reaches_bind.
      * exact (structured_mode_reaches _ console_lines_any rt _ _ _
                 (Some (default_to [] (backupModels o))) sch
                 (Some (default_to "response" (schemaName o))) _ js _ Hkey Hjs).
      * intros v. apply only_ret.
    + intros e. apply only_bind; [apply only_console; exact I|]. intros _.
      destruct (default_to [] (backupModels o)).
      * apply only_ret.
      * apply only_bind; [apply only_console; exact I|].
        intros _. apply only_ret.
  - intros [v|primary rest]; [apply only_ret|].
    apply json_stage_only; [exact console_lines_any|auto].
Qed.

(** A failed structured attempt continues with the demoted models. *)
Lemma structured_block_demotes (t t1 : Trace) (sch : ZodType) (e : thrown) :
  structured_first o = true ->
  schema o = Some sch ->
  _callInStructuredOutputMode rt (string_or (systemPrompt o) structured_system_prompt)
    (userPrompt o) (primaryModel o) (Some (default_to [] (backupModels o))) sch
    (Some (default_to "response" (schemaName o))) (routingOptions o)
    (Console LevelLog [ShowText (using_structured (primaryModel o))] :: t)
  = (Throw e, t1) ->
  exists t2,
    structured_block rt o t
    = (Return (Continues (fst (demoted (primaryModel o) (default_to [] (backupModels o))))
                         (snd (demoted (primaryModel o) (default_to [] (backupModels o))))), t2)
    /\ posts t2 = posts t1.
Proof.
  intros Hyes Hsch Hrun.
  unfold structured_block. rewrite Hyes, Hsch.
  unfold bind at 1, console, emit. unfold try_catch. unfold bind at 1.
  rewrite Hrun.
  destruct (default_to [] (backupModels o)) as [|first rest]; eexists; split; reflexivity.
Qed.

End Strategy.

(** C1: a call of [makeLLMCall] attempts the structured mode exactly when
    the primary model supports structured output, a schema is given and
    JSON mode is not forced. Otherwise the call is the JSON stage for the
    models as given, and posts no structured request: it is the call in
    JSON mode for the primary model and the backup models as given, made
    before any request is posted, and with the key set the one request it
    posts is the request of the JSON mode that names the primary model.
    When the test holds, the key is set and the schema is converted, the
    first request posted is the structured request for the primary
    model. *)
Theorem C1_structured_mode_iff :
  forall (rt : Runtime) (o : CallOptions),
    attempts_structured (snd (makeLLMCall rt o []))
    = supportsStructuredOutput (primaryModel o)
      && (match schema o with Some _ => true | None => false end)
      && negb (default_to false (forceJsonMode o))
    /\ (structured_first o = false ->
        makeLLMCall rt o []
        = json_stage rt o (primaryModel o) (default_to [] (backupModels o)) []
        /\ List.existsb is_structured_request (snd (makeLLMCall rt o [])) = false)
    /\ (structured_first o = true ->
        forall (sch : ZodType) (js : value),
          schema o = Some sch ->
          api_key_missing (OPENROUTER_API_KEY rt) = false ->
          zodToJsonSchema rt sch None = Return js ->
          exists later : list Request.t,
            posts (snd (makeLLMCall rt o []))
            = (later
               ++ [structured_request (string_or (systemPrompt o) structured_system_prompt)
                     (userPrompt o) (primaryModel o) (default_to [] (backupModels o))
                     (default_to "response" (schemaName o)) js (routingOptions o)])%list)
    /\ (structured_first o = false ->
        let body :=
          json_mode_request (systemPrompt o) (Notions.expected_prompt rt o) (primaryModel o)
            (default_to [] (backupModels o)) (routingOptions o) in
        (exists t' : Trace,
            makeLLMCall rt o []
            = _callInJSONMode rt (systemPrompt o) (Notions.expected_prompt rt o)
                (primaryModel o) (Some (default_to [] (backupModels o))) (routingOptions o) t'
            /\ posts t' = [])
        /\ (api_key_missing (OPENROUTER_API_KEY rt) = false ->
            posts (snd (makeLLMCall rt o [])) = [body]
            /\ Request.response_format body = json_object
            /\ Request.model body = id (primaryModel o)
            /\ Request.models body = List.map id (default_to [] (backupModels o)))).
Proof.
  intros rt o.
  assert (Hquiet : structured_first o = false ->
                   exists events, snd (makeLLMCall rt o []) = events
                                  /\ List.Forall unstructured events).
  { intros Hno. rewrite (makeLLMCall_direct rt o [] Hno).
    destruct (json_stage_only _ console_lines_unstructured rt o (primaryModel o)
                (default_to [] (backupModels o))) with (t := @nil Event)
      as [events [Hev Hall]].
    - intros body Hfmt. split; [reflexivity|]. simpl. rewrite Hfmt. reflexivity.
    - exists events. rewrite Hev, List.app_nil_r. auto. }
  split; [|split; [|split]].
  - fold (structured_first o).
    destruct (structured_first o) eqn:Hc.
    + destruct (structured_block_announces rt o (fun _ => True) [])
        as [events [Hev _]]; auto using console_lines_any.
      rewrite Hev. apply attempts_after_announcement.
    + destruct (Hquiet eq_refl) as [events [Hev Hall]].
      rewrite Hev. apply attempts_none. exact Hall.
  - intros Hno. split; [apply makeLLMCall_direct; exact Hno|].
    destruct (Hquiet Hno) as [events [Hev Hall]]. rewrite Hev.
    clear Hev. induction Hall as [|e events [_ Hr] _ IH]; [reflexivity|].
    simpl. rewrite Hr, IH. reflexivity.
  - intros Hyes sch js Hsch Hkey Hjs.
    destruct (structured_block_posts rt o [] sch js Hyes Hsch Hkey Hjs) as [events [Hev _]].
    exists (posts events). rewrite Hev, posts_app. reflexivity.
  - intros Hno body.
    destruct (json_stage_call rt o (primaryModel o) (default_to [] (backupModels o)) [])
      as [t' [Hstage Hposts]].
    rewrite (makeLLMCall_direct rt o [] Hno), Hstage.
    split; [exists t'; split; [reflexivity|exact Hposts]|].
    intros Hkey.
    destruct (json_mode_reaches _ console_lines_not_a_post rt (systemPrompt o)
                (Notions.expected_prompt rt o) (primaryModel o)
                (Some (default_to [] (backupModels o))) (routingOptions o) t' Hkey)
      as [events [Hev Hall]].
    split.
    + rewrite Hev, posts_app, (posts_of_consoles events Hall). simpl.
      rewrite Hposts. reflexivity.
    + split; [reflexivity|]. split; [reflexivity|].
      exact (built_models (primaryModel o) (default_to [] (backupModels o))
               (routingOptions o)).
Qed.

Lemma C1_structured_mode_witness :
  let world := World.scripted World.key [Return (World.replies World.bare_answer)] in
  (* no structured support, no schema: one request, in JSON mode *)
  (makeLLMCall world (World.call Models.GPT35Turbo [] None None) []
   = json_stage world (World.call Models.GPT35Turbo [] None None) Models.GPT35Turbo [] []
   /\ List.existsb is_structured_request
        (snd (makeLLMCall world (World.call Models.GPT35Turbo [] None None) [])) = false)
  (* support and a schema: the structured request goes first *)
  /\ (exists later : list Request.t,
       posts (snd (makeLLMCall world (World.call Models.GPT4o [] (Some World.z_any) None) []))
       = (later
          ++ [structured_request structured_system_prompt "Return a JSON object."
                Models.GPT4o [] "response"
                (Obj [("type", Str "object"); ("additionalProperties", Bool false)])
                None])%list)
  (* no structured support: the one request posted is in JSON mode, for the
     primary model *)
  /\ posts (snd (makeLLMCall world (World.call Models.GPT35Turbo [] None None) []))
     = [json_mode_request None "Return a JSON object." Models.GPT35Turbo [] None]
  /\ Request.model (json_mode_request None "Return a JSON object." Models.GPT35Turbo [] None)
     = "openai/gpt-3.5-turbo-0125".
Proof.
  intros world. split; [|split; [|split]].
  - apply (C1_structured_mode_iff world (World.call Models.GPT35Turbo [] None None)).
    reflexivity.
  - apply (C1_structured_mode_iff world (World.call Models.GPT4o [] (Some World.z_any) None))
      with (sch := World.z_any); reflexivity.
  - apply (C1_structured_mode_iff world (World.call Models.GPT35Turbo [] None None));
      reflexivity.
  - reflexivity.
Defined.

(** C2: when the structured attempt of [makeLLMCall] has thrown, the call
    goes on as the JSON stage with the first backup model as the primary
    model and the other backup models as the backup list, or, when there
    is no backup model, with the primary model as given and no backup
    model. With the key set, the request of the JSON mode is then the next
    and last request posted: it names that model, and its fallback ids are
    the ids of those backup models. *)
Theorem C2_demotion :
  forall (rt : Runtime) (o : CallOptions) (sch : ZodType) (e : thrown) (t t1 : Trace),
    structured_first o = true ->
    schema o = Some sch ->
    _callInStructuredOutputMode rt (string_or (systemPrompt o) structured_system_prompt)
      (userPrompt o) (primaryModel o) (Some (default_to [] (backupModels o))) sch
      (Some (default_to "response" (schemaName o))) (routingOptions o)
      (Console LevelLog [ShowText (using_structured (primaryModel o))] :: t)
    = (Throw e, t1) ->
    let primary :=
      match default_to [] (backupModels o) with first :: _ => first | [] => primaryModel o end in
    let rest :=
      match default_to [] (backupModels o) with _ :: others => others | [] => [] end in
    (exists t2, makeLLMCall rt o t = json_stage rt o primary rest t2 /\ posts t2 = posts t1)
    /\ (api_key_missing (OPENROUTER_API_KEY rt) = false ->
        exists body : Request.t,
          posts (snd (makeLLMCall rt o t)) = body :: posts t1
          /\ Request.response_format body = json_object
          /\ Request.model body = id primary
          /\ Request.models body = List.map id rest).
Proof.
  intros rt o sch e t t1 Hyes Hsch Hrun primary rest.
  destruct (structured_block_demotes rt o t t1 sch e Hyes Hsch Hrun) as [t2 [Hblock Hposts]].
  assert (Hdem : demoted (primaryModel o) (default_to [] (backupModels o)) = (primary, rest)).
  { subst primary rest. destruct (default_to [] (backupModels o)); reflexivity. }
  rewrite Hdem in Hblock. simpl in Hblock.
  assert (Hcall : makeLLMCall rt o t = json_stage rt o primary rest t2).
  { unfold makeLLMCall. unfold bind at 1. rewrite Hblock. reflexivity. }
  split; [exists t2; auto|].
  intros Hkey.
  destruct (json_stage_run rt o primary rest t2) as [prompt [t3 [Hstage Hposts3]]].
  destruct (json_mode_reaches _ console_lines_not_a_post rt (systemPrompt o) prompt primary
              (Some rest) (routingOptions o) t3 Hkey) as [events [Hev Hall]].
  exists (json_mode_request (systemPrompt o) prompt primary rest (routingOptions o)).
  split.
  - rewrite Hcall, Hstage, Hev, posts_app, (posts_of_consoles events Hall). simpl.
    rewrite Hposts3, Hposts. reflexivity.
  - split; [reflexivity|]. split; [reflexivity|].
    exact (built_models primary rest (routingOptions o)).
Qed.

Lemma C2_demotion_witness :
  let world :=
    World.scripted World.key
      [Return (World.replies World.bare_answer); Return (World.replies World.bare_answer)] in
  let o := World.call Models.GPT4o [Models.Claude; Models.GPT35Turbo] (Some World.z_never) None in
  exists (body : Request.t) (first : Request.t),
    posts (snd (makeLLMCall world o [])) = [body; first]
    /\ Request.response_format body = json_object
    /\ Request.model body = "anthropic/claude-3.5-sonnet"
    /\ Request.models body = ["openai/gpt-3.5-turbo-0125"].
Proof.
  intros world o.
  destruct (C2_demotion world o World.z_never
              (new_Error "LLM response failed Zod validation: Invalid input")
              [] _ eq_refl eq_refl eq_refl) as [_ Hpost].
  destruct (Hpost eq_refl) as [body [Hposts [Hfmt [Hmodel Hmodels]]]].
  exists body. eexists. split; [exact Hposts|]. auto.
Defined.

(** C8: when the transport has returned the text [content] to the call in
    JSON mode, the call returns what [JSON.parse] makes of the cleaned
    text, as it is: the function takes no schema, and nothing validates the
    value. When [JSON.parse] throws, the call throws the error of
    [msg_json_parse] and posts no other request. The outcome of the call in
    JSON mode is the outcome of [makeLLMCall] whenever the JSON stage is
    reached, so nothing comes after it. *)
Theorem C8_json_mode_is_final :
  (forall (rt : Runtime) (sp : option string) (up : string) (pm : ModelInfo)
          (bm : option (list ModelInfo)) (ro : option RoutingOptions)
          (t t1 : Trace) (content : string),
      makeOpenrouterCall rt (json_mode_request sp up pm (default_to [] bm) ro) t
      = (Return (Str content), t1) ->
      _callInJSONMode rt sp up pm bm ro t
      = match JSON_parse rt (Text.clean content) with
        | Return parsedJson => (Return parsedJson, t1)
        | Throw parseError =>
            (Throw (new_Error msg_json_parse),
             Console LevelError [ShowText "Error during makeJSONLLMCall:";
                                 ShowThrown (new_Error msg_json_parse)]
             :: Console LevelError [ShowText "Raw Content received:"; ShowValue (Str content)]
             :: Console LevelError [ShowText "Cleaned Content that failed parsing:";
                                    ShowText (Text.clean content)]
             :: Console LevelError
                  [ShowText "Failed to parse JSON content string from OpenRouter JSON mode response:";
                   ShowThrown parseError]
             :: t1)
        end
      /\ posts (snd (_callInJSONMode rt sp up pm bm ro t)) = posts t1)
  /\ (forall (rt : Runtime) (o : CallOptions) (t t' : Trace)
             (primary : ModelInfo) (rest : list ModelInfo),
        structured_block rt o t = (Return (Continues primary rest), t') ->
        exists (prompt : string) (t'' : Trace),
          makeLLMCall rt o t
          = _callInJSONMode rt (systemPrompt o) prompt primary (Some rest) (routingOptions o) t''
          /\ posts t'' = posts t').
Proof.
  split.
  - intros rt sp up pm bm ro t t1 content Hsend.
    assert (Hrun : _callInJSONMode rt sp up pm bm ro t
                   = match JSON_parse rt (Text.clean content) with
                     | Return parsedJson => (Return parsedJson, t1)
                     | Throw parseError =>
                         (Throw (new_Error msg_json_parse),
                          Console LevelError [ShowText "Error during makeJSONLLMCall:";
                                              ShowThrown (new_Error msg_json_parse)]
                          :: Console LevelError
                               [ShowText "Raw Content received:"; ShowValue (Str content)]
                          :: Console LevelError
                               [ShowText "Cleaned Content that failed parsing:";
                                ShowText (Text.clean content)]
                          :: Console LevelError
                               [ShowText "Failed to parse JSON content string from OpenRouter JSON mode response:";
                                ShowThrown parseError]
                          :: t1)
                     end).
    { unfold _callInJSONMode. unfold try_catch at 1. unfold bind at 1. rewrite Hsend.
      unfold bind at 1, eval at 1, clean_content. unfold try_catch, eval.
      destruct (JSON_parse rt (Text.clean content)); reflexivity. }
    split; [exact Hrun|].
    rewrite Hrun. destruct (JSON_parse rt (Text.clean content)); reflexivity.
  - intros rt o t t' primary rest Hblock.
    destruct (json_stage_run rt o primary rest t') as [prompt [t'' [Hstage Hposts]]].
    exists prompt, t''. split; [|exact Hposts].
    unfold makeLLMCall. unfold bind at 1. rewrite Hblock. exact Hstage.
Qed.

Lemma C8_json_mode_witness :
  let world := World.scripted World.key [Return (World.replies World.bare_answer)] in
  let o := World.call Models.QwenQwq32B [] (Some World.z_never) (Some true) in
  (exists t1,
      _callInJSONMode world None "x" Models.QwenQwq32B None None [] = (Return (Obj [("a", Num 1)]), t1))
  /\ exists (prompt : string) (t'' : Trace),
       makeLLMCall world o []
       = _callInJSONMode world (systemPrompt o) prompt Models.QwenQwq32B (Some []) None t''
       /\ posts t'' = [].
Proof.
  intros world o. destruct C8_json_mode_is_final as [Hjson Hfinal]. split.
  - eexists.
    apply (Hjson world None "x" Models.QwenQwq32B None None [] _ World.bare_answer).
    reflexivity.
  - apply (Hfinal world o [] [] Models.QwenQwq32B []). reflexivity.
Defined.

(** * Further properties *)

Import Notions.

(** ** The transport, continued *)

Lemma transport_key_missing (rt : Runtime) (requestBody : Request.t) (t : Trace) :
  api_key_missing (OPENROUTER_API_KEY rt) = true ->
  makeOpenrouterCall rt requestBody t = (Throw (new_Error msg_no_api_key), t).
Proof. intros Hkey. unfold makeOpenrouterCall. rewrite Hkey. reflexivity. Qed.

Lemma transport_not_ok (rt : Runtime) (requestBody : Request.t) (t : Trace)
    (response : Response) :
  api_key_missing (OPENROUTER_API_KEY rt) = false ->
  fetch rt (List.length (posts t)) requestBody = Return response ->
  ok response = false ->
  exists (e : thrown) (t' : Trace), makeOpenrouterCall rt requestBody t = (Throw e, t').
Proof.
  intros Hkey Hf Hok.
  destruct (read_error_body_run response (Posted requestBody :: t)) as [line Hrun].
  unfold makeOpenrouterCall, try_catch, bind, post. rewrite Hkey, Hf. cbv iota beta.
  rewrite Hok, Hrun. unfold eval.
  destruct (finalErrorMessage (reported_code response) (reported_message response))
    as [message|e]; [|destruct (instanceof_Error e) eqn:He];
    do 2 eexists; unfold console, emit, throw; cbv iota beta; rewrite ?He; reflexivity.
Qed.

(** When the test of line 257 finds a content, the read of line 262 gives
    it, and it is truthy. *)
Lemma no_content_false (data : value) :
  no_content data = Return false ->
  exists c : value, first_content data = Return c /\ truthy c = true.
Proof.
  unfold no_content, first_content.
  destruct (get data "choices") as [choices|e]; [|discriminate].
  destruct (truthy choices); simpl; [|discriminate].
  destruct (get choices "length") as [len|e]; [|discriminate].
  destruct (strict_eq_zero len); [discriminate|].
  destruct (get0 choices) as [first|e]; [|discriminate].
  destruct (get first "message") as [message|e]; [|discriminate].
  destruct message; simpl; try discriminate;
    match goal with
    | |- Return (negb (truthy ?c)) = Return false -> _ =>
        intros H; exists c; split; [reflexivity|];
        destruct (truthy c); [reflexivity|discriminate H]
    end.
Qed.

(** X1: the transport posts its request once when the key is set, whatever
    the outcome is, and posts nothing when the key is missing. *)
Theorem X1_transport_posts_once :
  forall (rt : Runtime) (requestBody : Request.t) (t : Trace),
    posts (snd (makeOpenrouterCall rt requestBody t))
    = if api_key_missing (OPENROUTER_API_KEY rt) then posts t else requestBody :: posts t.
Proof.
  intros rt requestBody t.
  destruct (api_key_missing (OPENROUTER_API_KEY rt)) eqn:Hkey.
  - rewrite (transport_key_missing rt requestBody t Hkey). reflexivity.
  - destruct (transport_reaches _ console_lines_not_a_post rt requestBody t Hkey)
      as [events [Hev Hall]].
    rewrite Hev, posts_app, (posts_of_consoles events Hall). reflexivity.
Qed.

Lemma handler_throws_errors {A} (m : M A) (line : list Shown) (unknown : string)
    (t t' : Trace) (e : thrown) :
  try_catch m
    (fun error =>
       console LevelError (line ++ [ShowThrown error])%list ;;;
       (if instanceof_Error error then throw error else throw (new_Error unknown))) t
  = (Throw e, t') ->
  instanceof_Error e = true.
Proof.
  unfold try_catch, bind, console, emit, throw.
  destruct (m t) as [[a|e0] t0]; [discriminate|].
  destruct e0; simpl; intros H; injection H as <- _; reflexivity.
Qed.

Lemma transport_throws_instance (rt : Runtime) (requestBody : Request.t) (t t' : Trace)
    (e : thrown) :
  makeOpenrouterCall rt requestBody t = (Throw e, t') -> instanceof_Error e = true.
Proof.
  unfold makeOpenrouterCall.
  destruct (api_key_missing (OPENROUTER_API_KEY rt)).
  - intros H. injection H as <- _. reflexivity.
  - apply (handler_throws_errors _
             [ShowText "Error during _makeOpenrouterCall execution:"]).
Qed.

(** X2: whatever the transport throws is an instance of [Error]. *)
Theorem X2_transport_throws_errors :
  forall (rt : Runtime) (requestBody : Request.t) (t t' : Trace) (e : thrown),
    makeOpenrouterCall rt requestBody t = (Throw e, t') ->
    instanceof_Error e = true.
Proof. exact transport_throws_instance. Qed.

Lemma X2_transport_throws_errors_witness :
  instanceof_Error (new_Error msg_unknown_transport) = true.
Proof.
  apply (X2_transport_throws_errors
           (World.scripted World.key [Throw (NonError (Str "ECONNRESET"))])
           World.a_request []
           [caught_line (NonError (Str "ECONNRESET")); Posted World.a_request]).
  reflexivity.
Defined.

(** The transport has returned. *)
Lemma transport_returned (rt : Runtime) (requestBody : Request.t) (t t' : Trace) (v : value) :
  makeOpenrouterCall rt requestBody t = (Return v, t') ->
  exists (response : Response) (data : value),
    fetch rt (List.length (posts t)) requestBody = Return response
    /\ ok response = true
    /\ json response = Return data
    /\ first_content data = Return v
    /\ truthy v = true
    /\ t' = Posted requestBody :: t.
Proof.
  intros Hrun.
  destruct (api_key_missing (OPENROUTER_API_KEY rt)) eqn:Hkey.
  { rewrite (transport_key_missing rt requestBody t Hkey) in Hrun. discriminate. }
  destruct (fetch rt (List.length (posts t)) requestBody) as [response|e] eqn:Hf.
  2:{ rewrite (transport_rejected rt requestBody t Hkey e Hf) in Hrun. discriminate. }
  destruct (ok response) eqn:Hok.
  2:{ destruct (transport_not_ok rt requestBody t response Hkey Hf Hok) as [e [t0 H]].
      rewrite H in Hrun. discriminate. }
  destruct (json response) as [data|e] eqn:Hjson.
  2:{ rewrite (transport_ok_throws rt requestBody t Hkey response e Hf Hok) in Hrun;
        [discriminate|rewrite Hjson; reflexivity]. }
  destruct (no_content data) as [missing|e] eqn:Hmiss.
  2:{ rewrite (transport_ok_throws rt requestBody t Hkey response e Hf Hok) in Hrun;
        [discriminate|rewrite Hjson; exact Hmiss]. }
  rewrite (transport_ok rt requestBody t Hkey response data missing Hf Hok Hjson Hmiss) in Hrun.
  destruct missing; [discriminate|].
  destruct (no_content_false data Hmiss) as [c [Hc Htruthy]].
  rewrite Hc in Hrun. injection Hrun as <- <-.
  exists response, data. repeat split; auto.
Qed.

(** X3: when the transport returns a value, the response was ok, its body
    was JSON, the value is what [choices[0].message.content] reads in it,
    and it is truthy; the request is the only effect. *)
Theorem X3_transport_returns_content :
  forall (rt : Runtime) (requestBody : Request.t) (t t' : Trace) (v : value),
    makeOpenrouterCall rt requestBody t = (Return v, t') ->
    exists (response : Response) (data : value),
      fetch rt (List.length (posts t)) requestBody = Return response
      /\ ok response = true
      /\ json response = Return data
      /\ first_content data = Return v
      /\ truthy v = true
      /\ t' = Posted requestBody :: t.
Proof. exact transport_returned. Qed.

Lemma X3_transport_returns_content_witness :
  exists (response : Response) (data : value),
    fetch (World.scripted World.key [Return (World.replies World.bare_answer)]) 0
      World.a_request = Return response
    /\ ok response = true
    /\ json response = Return data
    /\ first_content data = Return (Str World.bare_answer)
    /\ truthy (Str World.bare_answer) = true
    /\ [Posted World.a_request] = [Posted World.a_request].
Proof.
  apply (X3_transport_returns_content
           (World.scripted World.key [Return (World.replies World.bare_answer)])
           World.a_request [] [Posted World.a_request] (Str World.bare_answer)).
  reflexivity.
Defined.

(** X4: a key that is set to the empty string counts as missing: the
    transport throws the error of the missing key and posts nothing. With
    a key that is not empty the request is posted. *)
Theorem X4_empty_key_is_missing :
  forall (rt : Runtime) (requestBody : Request.t) (t : Trace),
    (OPENROUTER_API_KEY rt = Some EmptyString ->
     makeOpenrouterCall rt requestBody t = (Throw (new_Error msg_no_api_key), t))
    /\ (forall k : string,
          OPENROUTER_API_KEY rt = Some k -> k <> EmptyString ->
          posts (snd (makeOpenrouterCall rt requestBody t)) = requestBody :: posts t).
Proof.
  intros rt requestBody t. split.
  - intros Hkey. apply transport_key_missing. rewrite Hkey. reflexivity.
  - intros k Hkey Hk.
    assert (Hset : api_key_missing (OPENROUTER_API_KEY rt) = false).
    { rewrite Hkey. simpl. destruct k; [congruence|reflexivity]. }
    destruct (transport_reaches _ console_lines_not_a_post rt requestBody t Hset)
      as [events [Hev Hall]].
    rewrite Hev, posts_app, (posts_of_consoles events Hall). reflexivity.
Qed.

Lemma X4_empty_key_witness :
  makeOpenrouterCall
    (World.scripted (Some EmptyString) [Return (World.replies World.bare_answer)])
    World.a_request []
  = (Throw (new_Error msg_no_api_key), [])
  /\ posts (snd (makeOpenrouterCall
                   (World.scripted World.key [Return (World.replies World.bare_answer)])
                   World.a_request []))
     = [World.a_request].
Proof.
  split.
  - apply (X4_empty_key_is_missing
             (World.scripted (Some EmptyString) [Return (World.replies World.bare_answer)])
             World.a_request []).
    reflexivity.
  - apply (X4_empty_key_is_missing
             (World.scripted World.key [Return (World.replies World.bare_answer)])
             World.a_request []) with (k := "sk-or-v1-test"); [reflexivity|discriminate].
Defined.

(** X5: an ok response whose body cannot be decoded makes the transport
    throw what [response.json()] threw when that is an instance of
    [Error], and not the error of an empty completion, whatever
    [response.text()] would give. *)
Theorem X5_ok_undecodable_body :
  forall (rt : Runtime) (requestBody : Request.t) (t : Trace) (response : Response)
         (cls : error_class) (message : string),
    api_key_missing (OPENROUTER_API_KEY rt) = false ->
    fetch rt (List.length (posts t)) requestBody = Return response ->
    ok response = true ->
    json response = Throw (ErrorObject cls message) ->
    makeOpenrouterCall rt requestBody t
    = (Throw (ErrorObject cls message),
       [caught_line (ErrorObject cls message); Posted requestBody] ++ t)%list.
Proof.
  intros rt requestBody t response cls message Hkey Hf Hok Hjson.
  rewrite (transport_ok_throws rt requestBody t Hkey response (ErrorObject cls message) Hf Hok);
    [reflexivity|rewrite Hjson; reflexivity].
Qed.

Lemma X5_ok_undecodable_body_witness :
  fst (makeOpenrouterCall
         (World.scripted World.key
            [Return {| ok := true; status := 200; statusText := "OK";
                       json := Throw Reader.syntax_error;
                       text := Return "<html></html>" |}])
         World.a_request [])
  = Throw Reader.syntax_error.
Proof.
  rewrite (X5_ok_undecodable_body
             (World.scripted World.key
                [Return {| ok := true; status := 200; statusText := "OK";
                           json := Throw Reader.syntax_error;
                           text := Return "<html></html>" |}])
             World.a_request []
             {| ok := true; status := 200; statusText := "OK";
                json := Throw Reader.syntax_error; text := Return "<html></html>" |}
             ClsSyntaxError "Unexpected token in JSON" eq_refl eq_refl eq_refl eq_refl).
  reflexivity.
Defined.

(** X6: for an ok response whose body is an object with an array [choices]
    whose first item is an object with an object [message], the transport
    returns the [content] of the message when it is truthy, and throws the
    error of an empty completion otherwise (no content, an empty
    string). *)
Theorem X6_completion_body :
  forall (rt : Runtime) (requestBody : Request.t) (t : Trace) (response : Response)
         (body first message : list (string * value)) (others : list value),
    api_key_missing (OPENROUTER_API_KEY rt) = false ->
    fetch rt (List.length (posts t)) requestBody = Return response ->
    ok response = true ->
    json response = Return (Obj body) ->
    lookup "choices" body = Arr (Obj first :: others) ->
    lookup "message" first = Obj message ->
    fst (makeOpenrouterCall rt requestBody t)
    = if truthy (lookup "content" message)
      then Return (lookup "content" message)
      else Throw (new_Error msg_no_content).
Proof.
  intros rt requestBody t response body first message others Hkey Hf Hok Hjson Hch Hmsg.
  assert (Hmiss : no_content (Obj body) = Return (negb (truthy (lookup "content" message)))).
  { unfold no_content. simpl. rewrite Hch. simpl. rewrite Hmsg. reflexivity. }
  rewrite (transport_ok rt requestBody t Hkey response (Obj body) _ Hf Hok Hjson Hmiss).
  destruct (truthy (lookup "content" message)); simpl; [|reflexivity].
  unfold first_content. simpl. rewrite Hch. simpl. rewrite Hmsg. reflexivity.
Qed.

Lemma X6_completion_body_witness :
  fst (makeOpenrouterCall
         (World.scripted World.key [Return (World.replies EmptyString)])
         World.a_request [])
  = Throw (new_Error msg_no_content).
Proof.
  apply (X6_completion_body
           (World.scripted World.key [Return (World.replies EmptyString)])
           World.a_request [] (World.replies EmptyString)
           [("choices",
             Arr [Obj [("message", Obj [("role", Str "assistant");
                                        ("content", Str EmptyString)])]])]
           [("message", Obj [("role", Str "assistant"); ("content", Str EmptyString)])]
           [("role", Str "assistant"); ("content", Str EmptyString)] []);
    reflexivity.
Defined.

(** ** The structured mode *)

Section Structured.

Variable rt : Runtime.
Variables (sp up : string) (pm : ModelInfo) (bm : option (list ModelInfo)).
Variables (sch : ZodType) (name : option string) (ro : option RoutingOptions).

(** The transport has returned: the outcome and the trace of the
    structured mode. *)
Lemma structured_mode_run (js content : value) (t t1 : Trace) :
  zodToJsonSchema rt sch None = Return js ->
  makeOpenrouterCall rt
    (structured_request sp up pm (default_to [] bm) (default_to "response" name) js ro) t
  = (Return content, t1) ->
  _callInStructuredOutputMode rt sp up pm bm sch name ro t
  = match JSON_parse rt (to_string content) with
    | Throw parseError =>
        (Throw (new_Error msg_structured_parse),
         [ Console LevelError
             [ShowText "Error processing OpenRouter response in makeStructuredLLMCall:";
              ShowThrown (new_Error msg_structured_parse)];
           Console LevelError
             [ShowText "Failed to parse JSON content string from OpenRouter response:";
              ShowValue content; ShowThrown parseError] ] ++ t1)%list
    | Return parsedContent =>
        match safeParse sch parsedContent with
        | ParseSuccess data => (Return data, t1)
        | ParseFailure message formatted =>
            (Throw (new_Error ("LLM response failed Zod validation: " ++ message)),
             [ Console LevelError
                 [ShowText "Error processing OpenRouter response in makeStructuredLLMCall:";
                  ShowThrown (new_Error ("LLM response failed Zod validation: " ++ message))];
               Console LevelError
                 [ShowText ("Raw content: " ++ to_string content ++ " and parsed content: "
                            ++ JSON_stringify rt parsedContent)];
               Console LevelError
                 [ShowText "Zod validation failed for OpenRouter response:";
                  ShowValue formatted] ] ++ t1)%list
        end
    end.
Proof.
  intros Hjs Hsend.
  unfold _callInStructuredOutputMode. unfold bind at 1, eval at 1. rewrite Hjs.
  unfold try_catch at 1. unfold bind at 1. rewrite Hsend.
  unfold bind at 1, try_catch at 1, eval at 1.
  destruct (JSON_parse rt (to_string content)) as [parsed|pe]; [|reflexivity].
  destruct (safeParse sch parsed); reflexivity.
Qed.

(** The transport has thrown: the structured mode throws the same. *)
Lemma structured_mode_transport_throws (js : value) (t t1 : Trace) (e : thrown) :
  zodToJsonSchema rt sch None = Return js ->
  makeOpenrouterCall rt
    (structured_request sp up pm (default_to [] bm) (default_to "response" name) js ro) t
  = (Throw e, t1) ->
  exists t2, _callInStructuredOutputMode rt sp up pm bm sch name ro t = (Throw e, t2).
Proof.
  intros Hjs Hsend.
  pose proof (transport_throws_instance rt _ t t1 e Hsend) as He.
  unfold _callInStructuredOutputMode. unfold bind at 1, eval at 1. rewrite Hjs.
  unfold try_catch at 1. unfold bind at 1. rewrite Hsend.
  unfold bind, console, emit, rethrow_or. rewrite He. eexists. reflexivity.
Qed.

End Structured.

(** X7: when the transport has returned a content to the structured mode,
    the outcome is decided by [JSON.parse] of the content (not cleaned of
    fences) and by [safeParse] of the schema: the data of a successful
    validation is returned, a text that is not JSON throws the error of
    [msg_structured_parse], a value that fails the schema throws an error
    with the message of the validation. No other request is posted. *)
Theorem X7_structured_outcome :
  forall (rt : Runtime) (sp up : string) (pm : ModelInfo) (bm : option (list ModelInfo))
         (sch : ZodType) (name : option string) (ro : option RoutingOptions)
         (js content : value) (t t1 : Trace),
    zodToJsonSchema rt sch None = Return js ->
    makeOpenrouterCall rt
      (structured_request sp up pm (default_to [] bm) (default_to "response" name) js ro) t
    = (Return content, t1) ->
    fst (_callInStructuredOutputMode rt sp up pm bm sch name ro t)
    = match JSON_parse rt (to_string content) with
      | Throw _ => Throw (new_Error msg_structured_parse)
      | Return parsedContent =>
          match safeParse sch parsedContent with
          | ParseSuccess data => Return data
          | ParseFailure message _ =>
              Throw (new_Error ("LLM response failed Zod validation: " ++ message))
          end
      end
    /\ posts (snd (_callInStructuredOutputMode rt sp up pm bm sch name ro t)) = posts t1.
Proof.
  intros rt sp up pm bm sch name ro js content t t1 Hjs Hsend.
  rewrite (structured_mode_run rt sp up pm bm sch name ro js content t t1 Hjs Hsend).
  destruct (JSON_parse rt (to_string content)) as [parsed|pe]; [|split; reflexivity].
  destruct (safeParse sch parsed); split; reflexivity.
Qed.

Lemma X7_structured_outcome_witness :
  fst (_callInStructuredOutputMode
         (World.scripted World.key [Return (World.replies World.bare_answer)])
         "Answer." "Return a JSON object." Models.GPT4o None World.z_never None None [])
  = Throw (new_Error "LLM response failed Zod validation: Invalid input").
Proof.
  destruct (X7_structured_outcome
              (World.scripted World.key [Return (World.replies World.bare_answer)])
              "Answer." "Return a JSON object." Models.GPT4o None World.z_never None None
              (Obj [("type", Str "object"); ("additionalProperties", Bool false)])
              (Str World.bare_answer) []
              [Posted (structured_request "Answer." "Return a JSON object." Models.GPT4o []
                         "response"
                         (Obj [("type", Str "object"); ("additionalProperties", Bool false)])
                         None)]
              eq_refl eq_refl) as [Hrun _].
  exact Hrun.
Defined.

(** The structured mode has returned. *)
Lemma structured_mode_returned (rt : Runtime) (sp up : string) (pm : ModelInfo)
    (bm : option (list ModelInfo)) (sch : ZodType) (name : option string)
    (ro : option RoutingOptions) (t t' : Trace) (v : value) :
    _callInStructuredOutputMode rt sp up pm bm sch name ro t = (Return v, t') ->
    exists (js content parsedContent : value),
      zodToJsonSchema rt sch None = Return js
      /\ makeOpenrouterCall rt
           (structured_request sp up pm (default_to [] bm) (default_to "response" name) js ro) t
         = (Return content, t')
      /\ JSON_parse rt (to_string content) = Return parsedContent
      /\ safeParse sch parsedContent = ParseSuccess v.
Proof.
  intros Hrun.
  destruct (zodToJsonSchema rt sch None) as [js|e] eqn:Hjs.
  2:{ unfold _callInStructuredOutputMode in Hrun. unfold bind at 1, eval at 1 in Hrun.
      rewrite Hjs in Hrun. discriminate. }
  destruct (makeOpenrouterCall rt
              (structured_request sp up pm (default_to [] bm) (default_to "response" name)
                 js ro) t) as [[content|e] t1] eqn:Hsend.
  2:{ destruct (structured_mode_transport_throws rt sp up pm bm sch name ro js t t1 e
                  Hjs Hsend) as [t2 H].
      rewrite H in Hrun. discriminate. }
  rewrite (structured_mode_run rt sp up pm bm sch name ro js content t t1 Hjs Hsend)
    in Hrun.
  destruct (JSON_parse rt (to_string content)) as [parsed|pe] eqn:Hparse; [|discriminate].
  destruct (safeParse sch parsed) as [data|message formatted] eqn:Hsafe; [|discriminate].
  injection Hrun as <- <-.
  exists js, content, parsed. auto.
Qed.

(** X8: the structured mode returns validated data only: a value it
    returns is the data of a successful [safeParse] of what [JSON.parse]
    made of the content the transport returned. *)
Theorem X8_structured_returns_validated :
  forall (rt : Runtime) (sp up : string) (pm : ModelInfo) (bm : option (list ModelInfo))
         (sch : ZodType) (name : option string) (ro : option RoutingOptions)
         (t t' : Trace) (v : value),
    _callInStructuredOutputMode rt sp up pm bm sch name ro t = (Return v, t') ->
    exists (js content parsedContent : value),
      zodToJsonSchema rt sch None = Return js
      /\ makeOpenrouterCall rt
           (structured_request sp up pm (default_to [] bm) (default_to "response" name) js ro) t
         = (Return content, t')
      /\ JSON_parse rt (to_string content) = Return parsedContent
      /\ safeParse sch parsedContent = ParseSuccess v.
Proof. exact structured_mode_returned. Qed.

Lemma X8_structured_returns_validated_witness :
  exists (js content parsedContent : value),
    zodToJsonSchema
      (World.scripted World.key [Return (World.replies World.bare_answer)]) World.z_any None
    = Return js
    /\ makeOpenrouterCall
         (World.scripted World.key [Return (World.replies World.bare_answer)])
         (structured_request "Answer." "Return a JSON object." Models.GPT4o [] "response" js
            None) []
       = (Return content,
          [Posted (structured_request "Answer." "Return a JSON object." Models.GPT4o []
                     "response"
                     (Obj [("type", Str "object"); ("additionalProperties", Bool false)])
                     None)])
    /\ Reader.parse (to_string content) = Return parsedContent
    /\ safeParse World.z_any parsedContent = ParseSuccess (Obj [("a", Num 1)]).
Proof.
  apply (X8_structured_returns_validated
           (World.scripted World.key [Return (World.replies World.bare_answer)])
           "Answer." "Return a JSON object." Models.GPT4o None World.z_any None None []).
  reflexivity.
Defined.

(** ** The JSON mode, continued *)

(** X11: a content that is not a string has no [replace] method: when the
    transport returns one (a number, an object), the JSON mode throws the
    TypeError of the call and parses nothing; the structured mode gives
    the same content to [JSON.parse] as text. *)
Theorem X11_content_not_a_string :
  forall (rt : Runtime) (sp : option string) (up : string) (pm : ModelInfo)
         (bm : option (list ModelInfo)) (ro : option RoutingOptions)
         (t t1 : Trace) (content : value),
    (forall s : string, content <> Str s) ->
    makeOpenrouterCall rt (json_mode_request sp up pm (default_to [] bm) ro) t
    = (Return content, t1) ->
    _callInJSONMode rt sp up pm bm ro t
    = (Throw (ErrorObject ClsTypeError "rawContentString.replace is not a function"),
       Console LevelError
         [ShowText "Error during makeJSONLLMCall:";
          ShowThrown (ErrorObject ClsTypeError "rawContentString.replace is not a function")]
       :: t1).
Proof.
  intros rt sp up pm bm ro t t1 content Hnot Hsend.
  unfold _callInJSONMode. unfold try_catch at 1. unfold bind at 1. rewrite Hsend.
  destruct content; try reflexivity.
  exfalso. eapply Hnot. reflexivity.
Qed.

Lemma X11_content_not_a_string_witness :
  fst (_callInJSONMode
         (World.scripted World.key [Return (World.ok_response (World.completion_body (Num 42)))])
         None "Return a number." Models.GPT4o None None [])
  = Throw (ErrorObject ClsTypeError "rawContentString.replace is not a function").
Proof.
  rewrite (X11_content_not_a_string
             (World.scripted World.key
                [Return (World.ok_response (World.completion_body (Num 42)))])
             None "Return a number." Models.GPT4o None None []
             [Posted (json_mode_request None "Return a number." Models.GPT4o [] None)]
             (Num 42)); [reflexivity|discriminate|reflexivity].
Defined.

(** ** Counting the requests *)

Section Adding.

Lemma adds_weaken {A} (n n' : nat) (m : M A) : (n <= n')%nat -> adds n m -> adds n' m.
Proof.
  intros Hle Hm t. destruct (Hm t) as [new [Hnew Hlen]].
  exists new. split; [exact Hnew|lia].
Qed.

Lemma adds_ret {A} (a : A) : adds 0 (ret a).
Proof. intros t. exists []. split; [reflexivity|simpl; lia]. Qed.

Lemma adds_throw {A} (e : thrown) : adds 0 (throw (A := A) e).
Proof. intros t. exists []. split; [reflexivity|simpl; lia]. Qed.

Lemma adds_eval {A} (c : completion A) : adds 0 (eval c).
Proof. intros t. exists []. split; [reflexivity|simpl; lia]. Qed.

Lemma adds_console (level : Level) (args : list Shown) : adds 0 (console level args).
Proof. intros t. exists []. split; [reflexivity|simpl; lia]. Qed.

Lemma adds_rethrow_or (e : thrown) (unknown : string) : adds 0 (rethrow_or e unknown).
Proof. unfold rethrow_or. destruct (instanceof_Error e); apply adds_throw. Qed.

Lemma adds_bind {A B} (n k : nat) (m : M A) (f : A -> M B) :
  adds n m -> (forall a, adds k (f a)) -> adds (n + k) (bind m f).
Proof.
  intros Hm Hf t. unfold bind.
  destruct (Hm t) as [new [Hnew Hlen]].
  destruct (m t) as [[a|e] t1]; simpl in *.
  - destruct (Hf a t1) as [new' [Hnew' Hlen']].
    exists (new' ++ new)%list. rewrite Hnew', Hnew, List.app_assoc, List.length_app.
    split; [reflexivity|lia].
  - exists new. split; [exact Hnew|lia].
Qed.

Lemma adds_try {A} (n k : nat) (m : M A) (h : thrown -> M A) :
  adds n m -> (forall e, adds k (h e)) -> adds (n + k) (try_catch m h).
Proof.
  intros Hm Hh t. unfold try_catch.
  destruct (Hm t) as [new [Hnew Hlen]].
  destruct (m t) as [[a|e] t1]; simpl in *.
  - exists new. split; [exact Hnew|lia].
  - destruct (Hh e t1) as [new' [Hnew' Hlen']].
    exists (new' ++ new)%list. rewrite Hnew', Hnew, List.app_assoc, List.length_app.
    split; [reflexivity|lia].
Qed.

Lemma adds_bind_0 {A B} (n : nat) (m : M A) (f : A -> M B) :
  adds n m -> (forall a, adds 0 (f a)) -> adds n (bind m f).
Proof.
  intros Hm Hf. apply adds_weaken with (n := (n + 0)%nat); [lia|]. apply adds_bind; auto.
Qed.

Lemma adds_try_0 {A} (n : nat) (m : M A) (h : thrown -> M A) :
  adds n m -> (forall e, adds 0 (h e)) -> adds n (try_catch m h).
Proof.
  intros Hm Hh. apply adds_weaken with (n := (n + 0)%nat); [lia|]. apply adds_try; auto.
Qed.

Lemma adds_after_0 {A B} (n : nat) (m : M A) (f : A -> M B) :
  adds 0 m -> (forall a, adds n (f a)) -> adds n (bind m f).
Proof. intros Hm Hf. apply (adds_bind 0 n); auto. Qed.

Ltac quiet :=
  repeat first
    [ apply adds_ret | apply adds_throw | apply adds_eval | apply adds_console
    | apply adds_rethrow_or
    | apply adds_bind_0; [|intros]
    | apply adds_try_0; [|intros]
    | match goal with
      | |- adds _ (if ?b then _ else _) => destruct b
      | |- adds _ (match ?x with _ => _ end) => destruct x
      end ].

Variable rt : Runtime.

Lemma read_error_body_adds (response : Response) : adds 0 (read_error_body response).
Proof. unfold read_error_body. quiet. Qed.

(** The requests of the transport. *)
Lemma transport_posts (requestBody : Request.t) (t : Trace) :
  posts (snd (makeOpenrouterCall rt requestBody t))
  = if api_key_missing (OPENROUTER_API_KEY rt) then posts t else requestBody :: posts t.
Proof.
  destruct (api_key_missing (OPENROUTER_API_KEY rt)) eqn:Hkey.
  - rewrite (transport_key_missing rt requestBody t Hkey). reflexivity.
  - destruct (transport_reaches _ console_lines_not_a_post rt requestBody t Hkey)
      as [events [Hev Hall]].
    rewrite Hev, posts_app, (posts_of_consoles events Hall). reflexivity.
Qed.

Lemma transport_adds (requestBody : Request.t) :
  adds (per_call rt) (makeOpenrouterCall rt requestBody).
Proof.
  intros t. rewrite transport_posts. unfold per_call.
  destruct (api_key_missing (OPENROUTER_API_KEY rt)).
  - exists []. split; [reflexivity|simpl; lia].
  - exists [requestBody]. split; [reflexivity|simpl; lia].
Qed.

Lemma json_mode_adds (sp : option string) (up : string) (pm : ModelInfo)
    (bm : option (list ModelInfo)) (ro : option RoutingOptions) :
  adds (per_call rt) (_callInJSONMode rt sp up pm bm ro).
Proof.
  unfold _callInJSONMode.
  apply adds_try_0; [apply adds_bind_0; [apply transport_adds|]|]; intros; quiet.
Qed.

Lemma structured_mode_adds (sp up : string) (pm : ModelInfo) (bm : option (list ModelInfo))
    (sch : ZodType) (name : option string) (ro : option RoutingOptions) :
  adds (per_call rt) (_callInStructuredOutputMode rt sp up pm bm sch name ro).
Proof.
  unfold _callInStructuredOutputMode.
  apply adds_after_0; [apply adds_eval|]. intros js.
  apply adds_try_0; [apply adds_bind_0; [apply transport_adds|]|]; intros; quiet.
Qed.

Lemma structured_block_adds (o : CallOptions) : adds (per_call rt) (structured_block rt o).
Proof.
  unfold structured_block.
  destruct (structured_first o); [|apply adds_weaken with (n := 0%nat); [lia|apply adds_ret]].
  destruct (schema o) as [sch|]; [|apply adds_weaken with (n := 0%nat); [lia|apply adds_ret]].
  apply adds_after_0; [apply adds_console|]. intros _.
  apply adds_try_0.
  - apply adds_bind_0; [apply structured_mode_adds|]. intros v. apply adds_ret.
  - intros e. quiet.
Qed.

Lemma json_stage_adds (o : CallOptions) (primary : ModelInfo) (rest : list ModelInfo) :
  adds (per_call rt) (json_stage rt o primary rest).
Proof.
  unfold json_stage.
  apply adds_after_0; [unfold log_reason; quiet|]. intros _.
  apply adds_after_0; [unfold prompt_with_hint; quiet|]. intros prompt.
  apply json_mode_adds.
Qed.

Lemma makeLLMCall_adds (o : CallOptions) : adds (per_call rt + per_call rt) (makeLLMCall rt o).
Proof.
  unfold makeLLMCall. apply adds_bind; [apply structured_block_adds|].
  intros [v|primary rest].
  - apply adds_weaken with (n := 0%nat); [lia|apply adds_ret].
  - apply json_stage_adds.
Qed.

End Adding.

(** X12: a call of [makeLLMCall] posts at most two requests, at most one
    when the structured mode is not tried, and none when the key is
    missing; it has no retry of its own. *)
Theorem X12_at_most_two_requests :
  forall (rt : Runtime) (o : CallOptions) (t : Trace),
    exists new : list Request.t,
      posts (snd (makeLLMCall rt o t)) = (new ++ posts t)%list
      /\ (List.length new <= 2)%nat
      /\ (structured_first o = false -> (List.length new <= 1)%nat)
      /\ (api_key_missing (OPENROUTER_API_KEY rt) = true -> new = []).
Proof.
  intros rt o t.
  destruct (makeLLMCall_adds rt o t) as [new [Hnew Hlen]].
  exists new. split; [exact Hnew|]. unfold per_call in Hlen.
  split; [destruct (api_key_missing (OPENROUTER_API_KEY rt)); simpl in Hlen; lia|].
  split.
  - intros Hno. rewrite (makeLLMCall_direct rt o t Hno) in Hnew.
    destruct (json_stage_adds rt o (primaryModel o) (default_to [] (backupModels o)) t)
      as [new' [Hnew' Hlen']].
    rewrite Hnew' in Hnew. apply List.app_inv_tail in Hnew. subst new'.
    unfold per_call in Hlen'.
    destruct (api_key_missing (OPENROUTER_API_KEY rt)); simpl in Hlen'; lia.
  - intros Hkey. rewrite Hkey in Hlen. simpl in Hlen.
    destruct new; [reflexivity|simpl in Hlen; lia].
Qed.

Lemma X12_at_most_two_requests_witness :
  exists new : list Request.t,
    posts (snd (makeLLMCall
                  (World.scripted World.key
                     [Return (World.replies World.bare_answer);
                      Return (World.replies World.bare_answer)])
                  (World.call Models.GPT4o [Models.Claude] (Some World.z_never) None) []))
    = (new ++ [])%list
    /\ (List.length new <= 2)%nat.
Proof.
  destruct (X12_at_most_two_requests
              (World.scripted World.key
                 [Return (World.replies World.bare_answer);
                  Return (World.replies World.bare_answer)])
              (World.call Models.GPT4o [Models.Claude] (Some World.z_never) None) [])
    as [new [Hnew [Hlen _]]].
  exists new. split; [exact Hnew|exact Hlen].
Defined.

(** ** The entry point, continued *)

Lemma consoles_satisfy (P : Event -> Prop) (events : list Event) :
  (forall level args, P (Console level args)) ->
  List.Forall not_a_post events -> List.Forall P events.
Proof.
  intros HP. induction 1 as [|e events He _ IH]; constructor; [|exact IH].
  destruct e; [discriminate He|apply HP].
Qed.

Lemma reaches_extend {A} (P : Event -> Prop) (events t : Trace) (p : completion A * Trace) :
  List.Forall P events -> reaches P (events ++ t)%list p -> reaches P t p.
Proof.
  intros Hall [ev [Hev Hall']]. exists (ev ++ events)%list.
  rewrite <- List.app_assoc. split; [exact Hev|]. apply List.Forall_app; auto.
Qed.

Lemma append_empty (s : string) : s ++ EmptyString = s.
Proof. induction s as [|c s IH]; simpl; [|rewrite IH]; reflexivity. Qed.

Section Call.

Variable rt : Runtime.
Variable o : CallOptions.

Lemma log_reason_exact (primary : ModelInfo) (t : Trace) :
  exists lines : list Event,
    log_reason o primary t = (Return tt, (lines ++ t)%list) /\ List.Forall not_a_post lines.
Proof.
  unfold log_reason.
  destruct (default_to false (forceJsonMode o));
    [|destruct (negb (supportsStructuredOutput primary)); [|destruct (schema o)]];
    try (eexists [_]; split; [reflexivity|repeat constructor]).
  exists []. split; [reflexivity|constructor].
Qed.

(** The prompt of the JSON mode is made without a request and without a
    throw. *)
Lemma prompt_with_hint_exact (t : Trace) :
  exists lines : list Event,
    prompt_with_hint rt o t = (Return (expected_prompt rt o), (lines ++ t)%list)
    /\ List.Forall not_a_post lines.
Proof.
  unfold prompt_with_hint, expected_prompt, hint.
  destruct (schema o) as [sch|]; [|exists []; split; [reflexivity|constructor]].
  unfold try_catch, bind, eval.
  destruct (zodToJsonSchema rt sch (Some "strict"));
    eexists [_]; split; try reflexivity; repeat constructor.
Qed.

Lemma json_stage_exact (primary : ModelInfo) (rest : list ModelInfo) (t : Trace) :
  exists lines : list Event,
    json_stage rt o primary rest t
    = _callInJSONMode rt (systemPrompt o) (expected_prompt rt o) primary (Some rest)
        (routingOptions o) (lines ++ t)%list
    /\ List.Forall not_a_post lines.
Proof.
  destruct (log_reason_exact primary t) as [l1 [H1 Hall1]].
  destruct (prompt_with_hint_exact (l1 ++ t)%list) as [l2 [H2 Hall2]].
  exists (l2 ++ l1)%list. split; [|apply List.Forall_app; auto].
  unfold json_stage. unfold bind at 1. rewrite H1. unfold bind at 1. rewrite H2.
  rewrite List.app_assoc. reflexivity.
Qed.

(** The JSON mode without the key. *)
Lemma json_mode_key_missing (sp : option string) (up : string) (pm : ModelInfo)
    (bm : option (list ModelInfo)) (ro : option RoutingOptions) (t : Trace) :
  api_key_missing (OPENROUTER_API_KEY rt) = true ->
  _callInJSONMode rt sp up pm bm ro t
  = (Throw (new_Error msg_no_api_key),
     Console LevelError
       [ShowText "Error during makeJSONLLMCall:"; ShowThrown (new_Error msg_no_api_key)] :: t).
Proof.
  intros Hkey. unfold _callInJSONMode. unfold try_catch at 1. unfold bind at 1.
  rewrite (transport_key_missing rt _ t Hkey). reflexivity.
Qed.

Lemma json_mode_throws_instance (sp : option string) (up : string) (pm : ModelInfo)
    (bm : option (list ModelInfo)) (ro : option RoutingOptions) (t t' : Trace) (e : thrown) :
  _callInJSONMode rt sp up pm bm ro t = (Throw e, t') -> instanceof_Error e = true.
Proof.
  unfold _callInJSONMode, rethrow_or.
  apply (handler_throws_errors _ [ShowText "Error during makeJSONLLMCall:"]).
Qed.

(** How the block of the structured mode ends. *)
Lemma structured_block_run (t : Trace) :
  (structured_first o = false
   /\ structured_block rt o t
      = (Return (Continues (primaryModel o) (default_to [] (backupModels o))), t))
  \/ (exists sch : ZodType,
        structured_first o = true /\ schema o = Some sch
        /\ match _callInStructuredOutputMode rt
                   (string_or (systemPrompt o) structured_system_prompt)
                   (userPrompt o) (primaryModel o) (Some (default_to [] (backupModels o)))
                   sch (Some (default_to "response" (schemaName o))) (routingOptions o)
                   (Console LevelLog [ShowText (using_structured (primaryModel o))] :: t)
           with
           | (Return v, t1) => structured_block rt o t = (Return (Returned v), t1)
           | (Throw e, t1) =>
               exists lines : list Event,
                 structured_block rt o t
                 = (Return (Continues
                              (fst (demoted (primaryModel o) (default_to [] (backupModels o))))
                              (snd (demoted (primaryModel o) (default_to [] (backupModels o))))),
                    (lines ++ t1)%list)
                 /\ List.Forall not_a_post lines
           end).
Proof.
  destruct (structured_first o) eqn:Hyes.
  - right. destruct (structured_first_schema o Hyes) as [sch Hsch].
    exists sch. split; [reflexivity|]. split; [exact Hsch|].
    unfold structured_block. rewrite Hyes, Hsch.
    unfold try_catch, bind, console, emit, ret.
    destruct (_callInStructuredOutputMode rt _ _ _ _ _ _ _ _) as [[v|e] t1].
    + reflexivity.
    + destruct (default_to [] (backupModels o)) as [|first rest].
      * eexists [_]. split; [reflexivity|repeat constructor].
      * eexists [_; _]. split; [reflexivity|repeat constructor].
  - left. split; [reflexivity|]. unfold structured_block. rewrite Hyes. reflexivity.
Qed.

(** The structured mode posts the structured request only. *)
Lemma structured_mode_planned (sch : ZodType) (t : Trace) :
  structured_first o = true -> schema o = Some sch ->
  reaches (planned rt o) t
    (_callInStructuredOutputMode rt (string_or (systemPrompt o) structured_system_prompt)
       (userPrompt o) (primaryModel o) (Some (default_to [] (backupModels o)))
       sch (Some (default_to "response" (schemaName o))) (routingOptions o) t).
Proof.
  intros Hyes Hsch.
  assert (Hlines : console_lines (planned rt o)) by (repeat split).
  unfold _callInStructuredOutputMode. unfold bind at 1, eval at 1.
  destruct (zodToJsonSchema rt sch None) as [js|e] eqn:Hjs; [|apply reaches_refl].
  apply reaches_try.
  - apply reaches_bind.
    + apply transport_only; [exact Hlines|].
      left. exists sch, js. auto.
    + intros contentString. apply only_bind.
      * apply only_try; [apply only_eval|]. intros parseError.
        apply only_bind; [apply only_console; exact I|]. intros _. apply only_throw.
      * intros parsedContent. destruct (safeParse sch parsedContent).
        -- apply only_ret.
        -- apply only_bind; [apply only_console; exact I|]. intros _.
           apply only_bind; [apply only_console; exact I|]. intros _. apply only_throw.
  - intros error. apply only_bind; [apply only_console; exact I|]. intros _.
    apply only_rethrow_or.
Qed.

(** The JSON stage posts a request of the JSON mode only. *)
Lemma json_stage_planned (primary : ModelInfo) (rest : list ModelInfo) (t : Trace) :
  (primary, rest) = (primaryModel o, default_to [] (backupModels o))
  \/ (structured_first o = true
      /\ (primary, rest) = demoted (primaryModel o) (default_to [] (backupModels o))) ->
  reaches (planned rt o) t (json_stage rt o primary rest t).
Proof.
  intros Hmodels.
  assert (Hlines : console_lines (planned rt o)) by (repeat split).
  destruct (json_stage_exact primary rest t) as [lines [Hrun Hall]].
  rewrite Hrun. apply reaches_extend with (events := lines).
  - apply consoles_satisfy; [intros; exact I|exact Hall].
  - apply json_mode_only; [exact Hlines|].
    right. exists primary, rest. split; [exact Hmodels|reflexivity].
Qed.

Lemma makeLLMCall_planned (t : Trace) : reaches (planned rt o) t (makeLLMCall rt o t).
Proof.
  unfold makeLLMCall. unfold bind at 1.
  destruct (structured_block_run t) as [[Hno Hblock] | [sch [Hyes [Hsch Hblock]]]].
  - rewrite Hblock. apply json_stage_planned. left. reflexivity.
  - pose proof (structured_mode_planned sch
                  (Console LevelLog [ShowText (using_structured (primaryModel o))] :: t)
                  Hyes Hsch) as Hreach.
    apply reaches_step with (e := Console LevelLog
                                    [ShowText (using_structured (primaryModel o))]) in Hreach;
      [|exact I].
    destruct (_callInStructuredOutputMode rt _ _ _ _ _ _ _ _) as [[v|e] t1].
    + rewrite Hblock. exact Hreach.
    + destruct Hblock as [lines [Hblock Hall]]. rewrite Hblock.
      destruct Hreach as [events [Hev Hall']]. simpl in Hev. subst t1.
      apply reaches_extend with (events := (lines ++ events)%list).
      * apply List.Forall_app. split; [|exact Hall'].
        apply consoles_satisfy; [intros; exact I|exact Hall].
      * rewrite <- List.app_assoc. apply json_stage_planned.
        right. split; [exact Hyes|]. destruct (demoted _ _); reflexivity.
Qed.

Lemma planned_well_formed (body : Request.t) :
  planned rt o (Posted body) -> well_formed o body.
Proof.
  intros [[sch [js [Hyes [Hsch [Hjs ->]]]]] | [primary [rest [Hmodels ->]]]].
  - unfold well_formed, structured_request.
    cbn [Request.provider Request.model Request.models Request.messages
         Request.response_format List.map].
    split; [apply built_require_parameters|].
    split; [left; reflexivity|].
    split; [rewrite built_models; intros x Hx; exact Hx|].
    split; [|reflexivity].
    exists (string_or (systemPrompt o) structured_system_prompt), EmptyString.
    rewrite append_empty. reflexivity.
  - unfold well_formed, json_mode_request.
    cbn [Request.provider Request.model Request.models Request.messages
         Request.response_format List.map].
    split; [apply built_require_parameters|].
    assert (Hin : List.In (id primary)
                    (id (primaryModel o) :: List.map id (default_to [] (backupModels o)))
                  /\ List.incl (List.map id rest)
                       (List.map id (default_to [] (backupModels o)))).
    { destruct Hmodels as [H | [_ H]].
      - injection H as -> ->. split; [left; reflexivity|intros x Hx; exact Hx].
      - destruct (default_to [] (backupModels o)) as [|first others]; simpl in H;
          injection H as -> ->.
        + split; [left; reflexivity|intros x Hx; exact Hx].
        + split; [right; left; reflexivity|intros x Hx; right; exact Hx]. }
    split; [exact (proj1 Hin)|].
    split; [rewrite built_models; exact (proj2 Hin)|].
    split; [|exact I].
    exists (string_or (systemPrompt o) json_mode_system_prompt).
    unfold expected_prompt.
    destruct (schema o) as [sch|].
    + destruct (zodToJsonSchema rt sch (Some "strict")) as [js|e].
      * exists (hint rt js). reflexivity.
      * exists EmptyString. rewrite append_empty. reflexivity.
    + exists EmptyString. rewrite append_empty. reflexivity.
Qed.

End Call.

(** X13: when the structured attempt returns, [makeLLMCall] returns its
    value at once: the value is validated data, the structured request is
    the one request posted, and the JSON mode is not entered. *)
Theorem X13_structured_success_returns :
  forall (rt : Runtime) (o : CallOptions) (sch : ZodType) (t t1 : Trace) (v : value),
    structured_first o = true ->
    schema o = Some sch ->
    _callInStructuredOutputMode rt (string_or (systemPrompt o) structured_system_prompt)
      (userPrompt o) (primaryModel o) (Some (default_to [] (backupModels o))) sch
      (Some (default_to "response" (schemaName o))) (routingOptions o)
      (Console LevelLog [ShowText (using_structured (primaryModel o))] :: t)
    = (Return v, t1) ->
    makeLLMCall rt o t = (Return v, t1)
    /\ (exists parsedContent : value, safeParse sch parsedContent = ParseSuccess v)
    /\ (exists js : value,
          posts t1
          = structured_request (string_or (systemPrompt o) structured_system_prompt)
              (userPrompt o) (primaryModel o) (default_to [] (backupModels o))
              (default_to "response" (schemaName o)) js (routingOptions o)
            :: posts t).
Proof.
  intros rt o sch t t1 v Hyes Hsch Hrun.
  split; [|split].
  - unfold makeLLMCall, structured_block. rewrite Hyes, Hsch.
    unfold try_catch, bind, console, emit, ret.
    rewrite Hrun. reflexivity.
  - destruct (structured_mode_returned _ _ _ _ _ _ _ _ _ _ _ Hrun)
      as [js [content [parsed [_ [_ [_ Hsafe]]]]]].
    exists parsed. exact Hsafe.
  - destruct (structured_mode_returned _ _ _ _ _ _ _ _ _ _ _ Hrun)
      as [js [content [parsed [_ [Hsend _]]]]].
    destruct (transport_returned _ _ _ _ _ Hsend) as [response [data [_ [_ [_ [_ [_ ->]]]]]]].
    exists js. reflexivity.
Qed.

Lemma X13_structured_success_witness :
  makeLLMCall (World.scripted World.key [Return (World.replies World.bare_answer)])
    (World.call Models.GPT4o [Models.Claude] (Some World.z_any) None) []
  = (Return (Obj [("a", Num 1)]),
     [ Posted (structured_request structured_system_prompt "Return a JSON object."
                 Models.GPT4o [Models.Claude] "response"
                 (Obj [("type", Str "object"); ("additionalProperties", Bool false)]) None);
       Console LevelLog [ShowText (using_structured Models.GPT4o)] ]).
Proof.
  apply (X13_structured_success_returns
           (World.scripted World.key [Return (World.replies World.bare_answer)])
           (World.call Models.GPT4o [Models.Claude] (Some World.z_any) None) World.z_any []);
    reflexivity.
Defined.

(** X14: without the key, [makeLLMCall] posts nothing and throws the error
    of the missing key, whatever the options are: both modes fail on it. *)
Theorem X14_missing_key_fails_the_call :
  forall (rt : Runtime) (o : CallOptions) (t : Trace),
    api_key_missing (OPENROUTER_API_KEY rt) = true ->
    fst (makeLLMCall rt o t) = Throw (new_Error msg_no_api_key)
    /\ posts (snd (makeLLMCall rt o t)) = posts t.
Proof.
  intros rt o t Hkey. split.
  - assert (Hstage : forall primary rest t0,
               fst (json_stage rt o primary rest t0) = Throw (new_Error msg_no_api_key)).
    { intros primary rest t0.
      destruct (json_stage_exact rt o primary rest t0) as [lines [Hrun _]].
      rewrite Hrun, (json_mode_key_missing rt _ _ _ _ _ _ Hkey). reflexivity. }
    unfold makeLLMCall. unfold bind at 1.
    destruct (structured_block_run rt o t) as [[Hno Hblock] | [sch [Hyes [Hsch Hblock]]]].
    + rewrite Hblock. apply Hstage.
    + destruct (_callInStructuredOutputMode rt _ _ _ _ _ _ _ _) as [[v|e] t1] eqn:Hrun.
      * destruct (structured_mode_returned _ _ _ _ _ _ _ _ _ _ _ Hrun)
          as [js [content [parsed [_ [Hsend _]]]]].
        rewrite (transport_key_missing rt _ _ Hkey) in Hsend. discriminate.
      * destruct Hblock as [lines [Hblock _]]. rewrite Hblock. apply Hstage.
  - destruct (makeLLMCall_adds rt o t) as [new [Hnew Hlen]].
    unfold per_call in Hlen. rewrite Hkey in Hlen.
    destruct new; [exact Hnew|simpl in Hlen; lia].
Qed.

Lemma X14_missing_key_witness :
  fst (makeLLMCall (World.scripted None [Return (World.replies World.bare_answer)])
         (World.call Models.GPT4o [Models.Claude] (Some World.z_any) None) [])
  = Throw (new_Error msg_no_api_key).
Proof.
  apply (X14_missing_key_fails_the_call
           (World.scripted None [Return (World.replies World.bare_answer)])
           (World.call Models.GPT4o [Models.Claude] (Some World.z_any) None) []).
  reflexivity.
Defined.

(** X15: whatever [makeLLMCall] throws is an instance of [Error], and so
    is whatever the JSON mode throws. *)
Theorem X15_call_throws_errors :
  forall (rt : Runtime) (o : CallOptions) (t t' : Trace) (e : thrown),
    makeLLMCall rt o t = (Throw e, t') -> instanceof_Error e = true.
Proof.
  intros rt o t t' e.
  assert (Hstage : forall primary rest t0,
             json_stage rt o primary rest t0 = (Throw e, t') -> instanceof_Error e = true).
  { intros primary rest t0.
    destruct (json_stage_exact rt o primary rest t0) as [lines [Hrun _]].
    rewrite Hrun. apply json_mode_throws_instance. }
  unfold makeLLMCall. unfold bind at 1.
  destruct (structured_block_run rt o t) as [[Hno Hblock] | [sch [Hyes [Hsch Hblock]]]].
  - rewrite Hblock. apply Hstage.
  - destruct (_callInStructuredOutputMode rt _ _ _ _ _ _ _ _) as [[v|e0] t1].
    + rewrite Hblock. discriminate.
    + destruct Hblock as [lines [Hblock _]]. rewrite Hblock. apply Hstage.
Qed.

Lemma X15_call_throws_errors_witness :
  instanceof_Error (new_Error msg_unknown_transport) = true.
Proof.
  apply (X15_call_throws_errors
           (World.scripted World.key [Throw (NonError (Str "ECONNRESET"))])
           (World.call Models.GPT35Turbo [] None None) []
           (snd (makeLLMCall (World.scripted World.key [Throw (NonError (Str "ECONNRESET"))])
                   (World.call Models.GPT35Turbo [] None None) []))).
  vm_compute. reflexivity.
Defined.

(** X16: every request a call of [makeLLMCall] posts requires parameter
    support, names the primary model or one of the backup models, lists
    ids of backup models only as fallbacks, has a system message and a
    user message that starts with the user prompt of the caller, and is
    strict when it carries a schema. *)
Theorem X16_requests_are_well_formed :
  forall (rt : Runtime) (o : CallOptions) (t : Trace),
    exists new : list Request.t,
      posts (snd (makeLLMCall rt o t)) = (new ++ posts t)%list
      /\ List.Forall (well_formed o) new.
Proof.
  intros rt o t.
  destruct (makeLLMCall_planned rt o t) as [events [Hev Hall]].
  exists (posts events). split; [rewrite Hev; apply posts_app|].
  clear Hev. induction Hall as [|e events He _ IH]; [constructor|].
  destruct e as [body|level args]; simpl; [|exact IH].
  constructor; [|exact IH]. apply (planned_well_formed rt o). exact He.
Qed.

Lemma json_mode_posts (rt : Runtime) (sp : option string) (up : string) (pm : ModelInfo)
    (bm : option (list ModelInfo)) (ro : option RoutingOptions) (t : Trace) :
  posts (snd (_callInJSONMode rt sp up pm bm ro t))
  = if api_key_missing (OPENROUTER_API_KEY rt) then posts t
    else json_mode_request sp up pm (default_to [] bm) ro :: posts t.
Proof.
  destruct (api_key_missing (OPENROUTER_API_KEY rt)) eqn:Hkey.
  - rewrite (json_mode_key_missing rt sp up pm bm ro t Hkey). reflexivity.
  - destruct (json_mode_reaches _ console_lines_not_a_post rt sp up pm bm ro t Hkey)
      as [events [Hev Hall]].
    rewrite Hev, posts_app, (posts_of_consoles events Hall). reflexivity.
Qed.

Lemma json_stage_posts (rt : Runtime) (o : CallOptions) (primary : ModelInfo)
    (rest : list ModelInfo) (t : Trace) :
  posts (snd (json_stage rt o primary rest t))
  = if api_key_missing (OPENROUTER_API_KEY rt) then posts t
    else json_mode_request (systemPrompt o) (expected_prompt rt o) primary rest
           (routingOptions o) :: posts t.
Proof.
  destruct (json_stage_exact rt o primary rest t) as [lines [Hrun Hall]].
  rewrite Hrun, json_mode_posts, posts_app, (posts_of_consoles lines Hall). reflexivity.
Qed.

(** X9: the schema is converted before the [try] block of the structured
    mode: when the conversion throws, the structured mode throws the same
    value as it is and posts nothing; [makeLLMCall] then goes on as the
    JSON stage with the demoted models, and its only request, if the key
    is set, is the request of the JSON mode. *)
Theorem X9_schema_conversion_throws :
  forall (rt : Runtime) (o : CallOptions) (sch : ZodType) (e : thrown) (t : Trace),
    structured_first o = true ->
    schema o = Some sch ->
    zodToJsonSchema rt sch None = Throw e ->
    let primary := fst (demoted (primaryModel o) (default_to [] (backupModels o))) in
    let rest := snd (demoted (primaryModel o) (default_to [] (backupModels o))) in
    (forall (sp up : string) (pm : ModelInfo) (bm : option (list ModelInfo))
            (name : option string) (ro : option RoutingOptions) (t0 : Trace),
        _callInStructuredOutputMode rt sp up pm bm sch name ro t0 = (Throw e, t0))
    /\ (exists lines : list Event,
          makeLLMCall rt o t = json_stage rt o primary rest (lines ++ t)%list
          /\ List.Forall not_a_post lines)
    /\ posts (snd (makeLLMCall rt o t))
       = if api_key_missing (OPENROUTER_API_KEY rt) then posts t
         else json_mode_request (systemPrompt o) (expected_prompt rt o) primary rest
                (routingOptions o) :: posts t.
Proof.
  intros rt o sch e t Hyes Hsch Hthrow primary rest.
  assert (Hmode : forall sp up pm bm name ro t0,
             _callInStructuredOutputMode rt sp up pm bm sch name ro t0 = (Throw e, t0)).
  { intros. unfold _callInStructuredOutputMode. unfold bind at 1, eval at 1.
    rewrite Hthrow. reflexivity. }
  assert (Hcall : exists lines : list Event,
             makeLLMCall rt o t = json_stage rt o primary rest (lines ++ t)%list
             /\ List.Forall not_a_post lines).
  { destruct (structured_block_run rt o t) as [[Hno _] | [sch' [_ [Hsch' Hblock]]]];
      [congruence|].
    assert (sch' = sch) by congruence. subst sch'.
    rewrite Hmode in Hblock. destruct Hblock as [lines [Hblock Hall]].
    exists (lines ++ [Console LevelLog [ShowText (using_structured (primaryModel o))]])%list.
    split.
    - unfold makeLLMCall. unfold bind at 1. rewrite Hblock.
      rewrite <- List.app_assoc. reflexivity.
    - apply List.Forall_app. split; [exact Hall|repeat constructor]. }
  split; [exact Hmode|]. split; [exact Hcall|].
  destruct Hcall as [lines [Hcall Hall]].
  rewrite Hcall, json_stage_posts, posts_app, (posts_of_consoles lines Hall). reflexivity.
Qed.

Lemma X9_schema_conversion_witness :
  let world :=
    {| OPENROUTER_API_KEY := World.key;
       fetch := fun _ _ => Return (World.replies World.bare_answer);
       JSON_parse := Reader.parse;
       JSON_stringify := Reader.stringify;
       zodToJsonSchema := fun _ _ => Throw (NonError (Str "unsupported schema")) |} in
  let o := World.call Models.GPT4o [Models.Claude] (Some World.z_any) None in
  posts (snd (makeLLMCall world o []))
  = [json_mode_request None "Return a JSON object." Models.Claude [] None].
Proof.
  intros world o.
  destruct (X9_schema_conversion_throws world o World.z_any
              (NonError (Str "unsupported schema")) [] eq_refl eq_refl eq_refl)
    as [_ [_ Hposts]].
  exact Hposts.
Defined.

(** X10: the hint never fails the call. The JSON stage posts, with the key
    set, one request whose user message is the user prompt as given when
    there is no schema or when the conversion of the schema throws, and
    the user prompt followed by the hint when the schema is converted. *)
Theorem X10_hint_is_best_effort :
  forall (rt : Runtime) (o : CallOptions) (primary : ModelInfo) (rest : list ModelInfo)
         (t : Trace),
    api_key_missing (OPENROUTER_API_KEY rt) = false ->
    exists prompt : string,
      posts (snd (json_stage rt o primary rest t))
      = json_mode_request (systemPrompt o) prompt primary rest (routingOptions o) :: posts t
      /\ match schema o with
         | None => prompt = userPrompt o
         | Some sch =>
             match zodToJsonSchema rt sch (Some "strict") with
             | Throw _ => prompt = userPrompt o
             | Return jsonSchemaForHint =>
                 prompt
                 = userPrompt o ++ LF ++ LF
                   ++ "--- JSON STRUCTURE HINT --- Please try to follow this structure:" ++ LF
                   ++ JSON_stringify rt jsonSchemaForHint ++ LF
                   ++ "--- END JSON STRUCTURE HINT ---"
             end
         end.
Proof.
  intros rt o primary rest t Hkey.
  exists (expected_prompt rt o). split.
  - rewrite json_stage_posts, Hkey. reflexivity.
  - unfold expected_prompt, hint. destruct (schema o) as [sch|]; [|reflexivity].
    destruct (zodToJsonSchema rt sch (Some "strict")); reflexivity.
Qed.

Lemma X10_hint_witness :
  let world :=
    {| OPENROUTER_API_KEY := World.key;
       fetch := fun _ _ => Return (World.replies World.bare_answer);
       JSON_parse := Reader.parse;
       JSON_stringify := Reader.stringify;
       zodToJsonSchema := fun _ _ => Throw (NonError (Str "unsupported schema")) |} in
  let o := World.call Models.GPT4o [] (Some World.z_any) (Some true) in
  exists prompt : string,
    posts (snd (json_stage world o Models.GPT4o [] []))
    = [json_mode_request None prompt Models.GPT4o [] None]
    /\ prompt = "Return a JSON object.".
Proof.
  intros world o.
  apply (X10_hint_is_best_effort world o Models.GPT4o [] []). reflexivity.
Defined.

(** ** The model registry *)

(** X17: in the registry of the source the symbolic names are distinct,
    the model ids are distinct, and no id is empty. *)
Theorem X17_registry_ids_are_distinct :
  distinct (List.map fst Models.Models) = true
  /\ distinct (List.map (fun entry => id (snd entry)) Models.Models) = true
  /\ List.forallb (fun entry => negb (String.eqb (id (snd entry)) EmptyString))
       Models.Models = true
  /\ List.length Models.Models = 13%nat.
Proof. repeat split. Qed.

(** ** The cleaning step, continued *)

Section Unwrapping.
Import Text.

Lemma length_app (a b : string) :
  String.length (a ++ b) = (String.length a + String.length b)%nat.
Proof. induction a as [|c a IH]; simpl; [|rewrite IH]; reflexivity. Qed.

Lemma after_prefix_app (p s : string) : after_prefix p (p ++ s) = Some s.
Proof.
  induction p as [|c p IH]; simpl; [reflexivity|].
  rewrite Ascii.eqb_refl. exact IH.
Qed.

Lemma trim_fixed (b : string) : trim b = b -> head_kept b /\ trimEnd b = b.
Proof.
  intros H.
  assert (Hhead : head_kept b).
  { rewrite <- H. apply trimEnd_head, trimStart_head. }
  split; [exact Hhead|].
  unfold trim in H. rewrite (trimStart_fixed b Hhead) in H. exact H.
Qed.

Lemma trimEnd_fixed_tail (c : ascii) (b : string) :
  trimEnd (String c b) = String c b ->
  trimEnd b = b /\ (b = EmptyString -> is_space c = false).
Proof.
  simpl. destruct (trimEnd b) as [|k1 k2] eqn:Hb.
  - destruct (is_space c) eqn:Hc; [discriminate|].
    intros H. injection H as <-. split; [reflexivity|auto].
  - intros H. injection H as <-. split; [reflexivity|discriminate].
Qed.

Lemma strip_close_fence_body (feed : bool) (b : string) :
  trimEnd b = b ->
  strip_close_fence (b ++ (if feed then Js.LF else EmptyString) ++ fence) = b.
Proof.
  induction b as [|c b IH]; intros Hb.
  - destruct feed; reflexivity.
  - destruct (trimEnd_fixed_tail c b Hb) as [Hb' Hc].
    change (strip_close_fence
              (String c b ++ (if feed then Js.LF else EmptyString) ++ fence))
      with (if String.eqb (String c (b ++ (if feed then Js.LF else EmptyString) ++ fence))
                 (Js.LF ++ fence)
               || String.eqb (String c (b ++ (if feed then Js.LF else EmptyString) ++ fence))
                    fence
            then EmptyString
            else String c (strip_close_fence
                             (b ++ (if feed then Js.LF else EmptyString) ++ fence))).
    rewrite (IH Hb').
    destruct (String.eqb (String c (b ++ (if feed then Js.LF else EmptyString) ++ fence))
                (Js.LF ++ fence)) eqn:H1.
    + exfalso. apply String.eqb_eq in H1. injection H1 as Hc1 H1.
      pose proof (f_equal String.length H1) as Hlen.
      rewrite length_app in Hlen.
      destruct b as [|c' b'].
      * specialize (Hc eq_refl). subst c. discriminate Hc.
      * destruct feed; simpl in Hlen; lia.
    + destruct (String.eqb (String c (b ++ (if feed then Js.LF else EmptyString) ++ fence))
                  fence) eqn:H2; [|reflexivity].
      exfalso. apply String.eqb_eq in H2. injection H2 as _ H2.
      pose proof (f_equal String.length H2) as Hlen.
      rewrite length_app in Hlen. destruct feed; simpl in Hlen; lia.
Qed.

Lemma strip_open_fence_body (feed : bool) (c : ascii) (b tail : string) :
  is_space c = false ->
  strip_open_fence (open_fence ++ (if feed then Js.LF else EmptyString) ++ String c b ++ tail)
  = String c b ++ tail.
Proof.
  intros Hc. unfold strip_open_fence. rewrite after_prefix_app.
  destruct feed.
  - rewrite after_prefix_app. reflexivity.
  - change (after_prefix Js.LF (EmptyString ++ String c b ++ tail))
      with (if Ascii.eqb "010" c then Some (b ++ tail) else None).
    destruct (Ascii.eqb "010" c) eqn:Heq; [|reflexivity].
    apply Ascii.eqb_eq in Heq. subst c. discriminate Hc.
Qed.

End Unwrapping.

(** X18: the cleaning takes the fences off every answer: for a body without
    space at its ends, the body between the opening fence and the closing
    fence, each with or without its line feed, is cleaned to the body. *)
Theorem X18_cleaning_unwraps_a_fenced_body :
  forall (feed_after_open feed_before_close : bool) (body : string),
    Text.trim body = body ->
    Text.clean (fenced feed_after_open feed_before_close body) = body.
Proof.
  intros f1 f2 body Htrim.
  destruct (trim_fixed body Htrim) as [Hhead Hend].
  destruct body as [|c b].
  - destruct f1, f2; reflexivity.
  - unfold Text.clean, fenced.
    rewrite (strip_open_fence_body f1 c b _ Hhead).
    rewrite (strip_close_fence_body f2 (String c b) Hend). exact Htrim.
Qed.

Lemma X18_cleaning_unwraps_witness :
  Text.clean (fenced true true World.bare_answer) = World.bare_answer
  /\ Text.clean (fenced false false World.bare_answer) = World.bare_answer.
Proof.
  split; apply X18_cleaning_unwraps_a_fenced_body; reflexivity.
Defined.

(** X19: the cleaning leaves a text as it is exactly when the text has no
    space at its ends, does not start with the opening fence and does not
    end with the closing fence; so a bare JSON answer reaches [JSON.parse]
    unchanged. *)
Theorem X19_cleaning_fixed_points :
  forall s : string,
    Text.clean s = s <-> Text.trim s = s /\ still_fenced s = false.
Proof.
  intros s. split.
  - intros Heq. split.
    + rewrite <- Heq at 2. rewrite <- Heq at 1. apply clean_trimmed.
    + destruct (still_fenced s) eqn:Hf; [|reflexivity].
      destruct (clean_length s) as [_ Hlt]. specialize (Hlt Hf).
      rewrite Heq in Hlt. lia.
  - intros [Htrim Hf]. unfold still_fenced in Hf.
    apply orb_false_iff in Hf as [Hs He].
    unfold Text.clean.
    destruct (strip_open_fence_length s) as [_ [_ Ho]]. rewrite (Ho Hs).
    destruct (strip_close_fence_length s) as [_ [_ Hc]]. rewrite (Hc He).
    exact Htrim.
Qed.

Lemma X19_cleaning_fixed_points_witness :
  Text.clean World.bare_answer = World.bare_answer.
Proof.
  apply X19_cleaning_fixed_points. split; reflexivity.
Defined.

(** ** The [/ai] route *)

Lemma ai_body_read (env : Server.Env) (body : value) :
  Server.request_json env = Return body ->
  body <> Null -> body <> Undefined ->
  get body "messages" = Return (member body "messages").
Proof.
  intros _ Hnull Hundef. unfold member.
  destruct body; try congruence; reflexivity.
Qed.

(** X20: when the key is missing (or empty) and the body of the request is
    read, the route answers 500 with the error [AI provider not
    configured.] and the model is not asked. *)
Theorem X20_ai_without_key :
  forall (env : Server.Env) (body : value),
    Server.request_json env = Return body ->
    body <> Null -> body <> Undefined ->
    api_key_missing (Server.env_key env) = true ->
    fst (Server.ai env) = Server.json_reply Server.not_configured 500
    /\ Server.requested (snd (Server.ai env)) = false.
Proof.
  intros env body Hjson Hnull Hundef Hkey.
  unfold Server.ai. rewrite Hjson, (ai_body_read env body Hjson Hnull Hundef), Hkey.
  split; reflexivity.
Qed.

Lemma X20_ai_without_key_witness :
  Server.ai (Server.answering None (Return Server.chat) (Return tt))
  = (Server.json_reply Server.not_configured 500,
     [ Server.Logged LevelError [ShowText "OPENROUTER_API_KEY is not set."];
       Server.Logged LevelLog [ShowText "Request body for /ai:"; ShowValue Server.chat] ]).
Proof.
  assert (Hchat : Server.chat <> Null /\ Server.chat <> Undefined) by (split; discriminate).
  destruct (X20_ai_without_key (Server.answering None (Return Server.chat) (Return tt))
              Server.chat eq_refl (proj1 Hchat) (proj2 Hchat) eq_refl) as [Hreply Hquiet].
  rewrite (surjective_pairing (Server.ai _)), Hreply. reflexivity.
Defined.

(** X21: when the body of the request cannot be read as JSON, or is [null],
    the route answers 500 with the error [Failed to process AI request
    with OpenRouter], with or without the key, and the model is not
    asked. *)
Theorem X21_ai_unreadable_body :
  forall (env : Server.Env),
    (exists e : thrown, Server.request_json env = Throw e)
    \/ Server.request_json env = Return Null ->
    fst (Server.ai env) = Server.json_reply Server.failed_request 500
    /\ Server.requested (snd (Server.ai env)) = false.
Proof.
  intros env [[e Hjson] | Hjson]; unfold Server.ai; rewrite Hjson; split; reflexivity.
Qed.

Lemma X21_ai_unreadable_body_witness :
  fst (Server.ai (Server.answering World.key (Return Null) (Return tt)))
  = Server.json_reply Server.failed_request 500.
Proof.
  apply (X21_ai_unreadable_body (Server.answering World.key (Return Null) (Return tt))).
  right. reflexivity.
Defined.

(** X22: with the key set and a body that is read, the model is asked with
    the [messages] of the body, or with no message when the body has
    none; when [streamText] returns, the route answers with the stream and
    its two headers, also when piping the stream throws: that error goes
    to the console only. *)
Theorem X22_ai_streams :
  forall (env : Server.Env) (body : value),
    Server.request_json env = Return body ->
    body <> Null -> body <> Undefined ->
    api_key_missing (Server.env_key env) = false ->
    let messages := or_else (member body "messages") (Arr []) in
    List.In (Server.Requested Server.ai_model messages) (snd (Server.ai env))
    /\ (forall u : unit,
          Server.streamText env Server.ai_model messages = Return u ->
          fst (Server.ai env) = Server.stream_reply Server.stream_headers)
    /\ (forall e : thrown,
          Server.streamText env Server.ai_model messages = Throw e ->
          fst (Server.ai env) = Server.json_reply Server.failed_request 500).
Proof.
  intros env body Hjson Hnull Hundef Hkey messages. subst messages.
  unfold Server.ai. rewrite Hjson, (ai_body_read env body Hjson Hnull Hundef), Hkey.
  destruct (Server.streamText env Server.ai_model _) as [u|e] eqn:Hstream.
  - split; [|split].
    + destruct (Server.pipe env); simpl; auto.
    + intros _ _. reflexivity.
    + intros e He. discriminate He.
  - split; [|split].
    + simpl. auto.
    + intros u Hu. discriminate Hu.
    + intros e' _. reflexivity.
Qed.

Lemma X22_ai_streams_witness :
  fst (Server.ai (Server.answering World.key (Return (Obj []))
                    (Throw (ErrorObject ClsError "socket closed"))))
  = Server.stream_reply Server.stream_headers
  /\ List.In (Server.Requested Server.ai_model (Arr []))
       (snd (Server.ai (Server.answering World.key (Return (Obj []))
                          (Throw (ErrorObject ClsError "socket closed"))))).
Proof.
  destruct (X22_ai_streams
              (Server.answering World.key (Return (Obj []))
                 (Throw (ErrorObject ClsError "socket closed")))
              (Obj []) eq_refl) as [Hin [Hstream _]]; try discriminate; try reflexivity.
  split; [apply (Hstream tt); reflexivity|exact Hin].
Defined.
